(** * The cloud provider config asset

    A shallow embedding of [pkg/asset/manifests/cloudproviderconfig.go]:
    the [CloudProviderConfig] asset, its [Generate] method (the switch on
    the platform name and the assembly of the ConfigMap), [Files] and
    [Load], followed by the properties of [Generate] that the
    specification states.

    Go values are modelled as follows.
    - [string] is [string]; [[]byte] is [list Byte.byte]; the conversion
      [string(b)] is [string_of_list_byte].
    - [map[string]string] is [gmap string string].
    - a pointer that is [nil] in ordinary runs (the per-platform members
      of [types.Platform], the per-platform metadata of
      [installconfig.InstallConfig], the two fields of the asset) is an
      [option]; reading a field through [None] is a run-time panic.
    - a function returning [(T, error)] returns a [result T].
    - packages are modules, so that the source's qualified names survive
      ([awstypes.Region], [azure.CloudProviderConfig], ...). *)

From Stdlib Require Import Ascii String List.
From stdpp Require Import base option list strings gmap.

Local Open Scope string_scope.

(** ** Errors: [github.com/pkg/errors] as far as the asset uses it *)

Module errors.

(** An error is a message, possibly wrapped around the error that
    caused it. *)
Inductive error : Type :=
| New (message : string)
| Wrap (err : error) (message : string).

(** [errors.Wrapf(err, format, args...)] is [Wrap] with the formatted
    message; the caller formats. *)
Definition Wrapf (err : error) (message : string) : error :=
  Wrap err message.

(** The [Error()] method: the messages of the chain, outermost first. *)
Fixpoint Error (e : error) : string :=
  match e with
  | New message => message
  | Wrap err message => message +:+ ": " +:+ Error err
  end.

End errors.

Abbreviation error := errors.error.

(** A Go call returning [(T, error)]: the value when the error is [nil]. *)
Inductive result (T : Type) : Type :=
| Ok (value : T)
| Err (err : error).
Arguments Ok {T} value.
Arguments Err {T} err.

(** ** The types the asset reads *)

Module asset.

Record File : Type := {
  Filename : string;
  Data : list Byte.byte;
}.

End asset.

Module metav1.

Record TypeMeta : Type := {
  APIVersion : string;
  Kind : string;
}.

Record ObjectMeta : Type := {
  Namespace : string;
  Name : string;
}.

End metav1.

Module corev1.

Record ConfigMap : Type := {
  TypeMeta : metav1.TypeMeta;
  ObjectMeta : metav1.ObjectMeta;
  Data : gmap string string;
}.

(** The assignment [cm.Data[key] = value]. *)
Definition set_Data (key value : string) (cm : ConfigMap) : ConfigMap :=
  {| TypeMeta := TypeMeta cm;
     ObjectMeta := ObjectMeta cm;
     Data := <[key := value]> (Data cm) |}.

End corev1.

(** The platform structs of [pkg/types/...].  Only the fields that
  [Generate] reads are named; where a struct is handed whole to a
  function or method declared elsewhere, [Unread] stands for its other
  fields, of a type [U] the development is parametric in. *)

Module awstypes.
Record Platform : Type := {
  Region : string;
}.
End awstypes.

Module azuretypes.
Definition CloudEnvironment : Type := string.

Record Platform (U : Type) : Type := {
  CloudName : CloudEnvironment;
  Region : string;
  NetworkResourceGroupName : string;
  VirtualNetwork : string;
  ComputeSubnet : string;
  ARMEndpoint : string;
  Unread : U;
}.
Arguments CloudName {U} _.
Arguments Region {U} _.
Arguments NetworkResourceGroupName {U} _.
Arguments VirtualNetwork {U} _.
Arguments ComputeSubnet {U} _.
Arguments ARMEndpoint {U} _.
Arguments Unread {U} _.
End azuretypes.

Module gcptypes.
Record Platform : Type := {
  ProjectID : string;
  ComputeSubnet : string;
}.
End gcptypes.

Module ibmcloudtypes.
Record Platform : Type := {
  Region : string;
}.
End ibmcloudtypes.

Module vspheretypes.
Record Platform (U : Type) : Type := {
  Folder : string;
  Datacenter : string;
  Unread : U;
}.
Arguments Folder {U} _.
Arguments Datacenter {U} _.
Arguments Unread {U} _.
End vspheretypes.

Module kubevirttypes.
Record Platform : Type := {
  Namespace : string;
}.
End kubevirttypes.

Module types.

(** [types.Platform]: one pointer per platform.  The members of the
    platforms that [Generate] never looks into (libvirt, none,
    baremetal, openstack, ovirt) are part of [UnreadPlatforms].  The
    struct is named [PlatformStruct] here because [InstallConfig] embeds
    it as the field [Platform]. *)
Record PlatformStruct (U : Type) : Type := {
  AWS : option awstypes.Platform;
  Azure : option (azuretypes.Platform U);
  GCP : option gcptypes.Platform;
  IBMCloud : option ibmcloudtypes.Platform;
  VSphere : option (vspheretypes.Platform U);
  Kubevirt : option kubevirttypes.Platform;
  UnreadPlatforms : U;
}.
Arguments AWS {U} _.
Arguments Azure {U} _.
Arguments GCP {U} _.
Arguments IBMCloud {U} _.
Arguments VSphere {U} _.
Arguments Kubevirt {U} _.
Arguments UnreadPlatforms {U} _.

(** [types.InstallConfig] embeds the platform struct, so that the
    source's [installConfig.Config.AWS] is
    [AWS (Platform (Config installConfig))]. *)
Record InstallConfig (U : Type) : Type := {
  AdditionalTrustBundle : string;
  Platform : PlatformStruct U;
  Unread : U;
}.
Arguments AdditionalTrustBundle {U} _.
Arguments Platform {U} _.
Arguments Unread {U} _.

End types.

Module icazure.

Record CredentialsStruct : Type := {
  SubscriptionID : string;
  TenantID : string;
  ClientID : string;
  ClientSecret : string;
}.

(** [Env] is [azureenv.Environment], the endpoint table. *)
Record Session (Env : Type) : Type := {
  Credentials : CredentialsStruct;
  Environment : Env;
}.
Arguments Credentials {Env} _.
Arguments Environment {Env} _.

Record Metadata : Type := {
  CloudName : azuretypes.CloudEnvironment;
}.

End icazure.

Module icibmcloud.

Record Metadata (U : Type) : Type := {
  Unread : U;
}.
Arguments Unread {U} _.

End icibmcloud.

Module installconfig.

Record InstallConfig (U : Type) : Type := {
  Config : types.InstallConfig U;
  Azure : option icazure.Metadata;
  IBMCloud : option (icibmcloud.Metadata U);
}.
Arguments Config {U} _.
Arguments Azure {U} _.
Arguments IBMCloud {U} _.

Record ClusterID : Type := {
  InfraID : string;
}.

End installconfig.

(** The payload structs of the manifests sub-packages. *)

Module azure.

Record CloudProviderConfig : Type := {
  CloudName : azuretypes.CloudEnvironment;
  ResourceGroupName : string;
  GroupLocation : string;
  ResourcePrefix : string;
  SubscriptionID : string;
  TenantID : string;
  AADClientID : string;
  AADClientSecret : string;
  NetworkResourceGroupName : string;
  NetworkSecurityGroupName : string;
  VirtualNetworkName : string;
  SubnetName : string;
  ResourceManagerEndpoint : string;
  ARO : bool;
}.

End azure.

Module kubevirtmanifests.

Record CloudProviderConfig : Type := {
  Namespace : string;
  InfraID : string;
}.

End kubevirtmanifests.

(** ** What the asset takes from outside this file

    Constants, tables, methods and functions that [Generate] uses and
    that are declared in other packages: each is a parameter here.
    [U] and [Env] are the types of the unread fields and of
    [azureenv.Environment].  The session and account lookups are calls to
    the cloud; one value of this class fixes their answers. *)
Class Externals (U Env : Type) : Type := {
  (* package manifests, other files *)
  manifestDir : string;
  (* path/filepath *)
  filepath_Join : string -> string -> string;
  (* k8s.io/api/core/v1 *)
  corev1_SchemeGroupVersion_String : string;
  (* github.com/ghodss/yaml and encoding/json *)
  yaml_Marshal : corev1.ConfigMap -> result (list Byte.byte);
  json_Marshal : Env -> result (list Byte.byte);
  (* pkg/types/...: the platform names *)
  libvirttypes_Name : string;
  nonetypes_Name : string;
  baremetaltypes_Name : string;
  ovirttypes_Name : string;
  awstypes_Name : string;
  openstacktypes_Name : string;
  azuretypes_Name : string;
  gcptypes_Name : string;
  ibmcloudtypes_Name : string;
  vspheretypes_Name : string;
  kubevirttypes_Name : string;
  (* pkg/types *)
  Platform_Name : types.PlatformStruct U -> string;
  (* pkg/types/aws and pkg/types/azure *)
  awstypes_C2SRegions : gset string;
  azuretypes_StackCloud : azuretypes.CloudEnvironment;
  azuretypes_ClusterResourceGroupName : azuretypes.Platform U -> string -> string;
  azuretypes_IsARO : azuretypes.Platform U -> bool;
  (* pkg/asset/installconfig/... *)
  icazure_Session : icazure.Metadata -> result (icazure.Session Env);
  icibmcloud_AccountID : icibmcloud.Metadata U -> result string;
  (* pkg/asset/manifests/... *)
  openstackmanifests_GenerateCloudProviderConfig :
    types.InstallConfig U -> result (string * string);
  azure_JSON : azure.CloudProviderConfig -> result string;
  gcpmanifests_CloudProviderConfig : string -> string -> string -> result string;
  ibmcloudmanifests_CloudProviderConfig : string -> string -> string -> result string;
  vspheremanifests_CloudProviderConfig :
    string -> vspheretypes.Platform U -> result string;
  kubevirtmanifests_JSON : kubevirtmanifests.CloudProviderConfig -> result string;
}.

(** The case constants of the switch in [Generate], in source order.  Go
    rejects a switch with two equal constant cases, so a program that
    compiles has them pairwise distinct. *)
Definition platformNames `{Externals U Env} : list string :=
  [ libvirttypes_Name; nonetypes_Name; baremetaltypes_Name; ovirttypes_Name;
    awstypes_Name; openstacktypes_Name; azuretypes_Name; gcptypes_Name;
    ibmcloudtypes_Name; vspheretypes_Name; kubevirttypes_Name ].

Definition DistinctNames `(X : Externals U Env) : Prop :=
  NoDup platformNames.

(** ** [fmt.Sprintf], for the verb the asset uses *)

Module fmt.

(** Each [%s] is replaced by the next argument; a [%s] without an
    argument prints as Go prints it.  Other verbs and surplus arguments
    do not occur in this file. *)
Fixpoint Sprintf (format : string) (args : list string) : string :=
  match format with
  | EmptyString => EmptyString
  | String c rest =>
      match rest with
      | String c' rest' =>
          if decide (c = "%"%char ∧ c' = "s"%char) then
            match args with
            | arg :: args' => arg +:+ Sprintf rest' args'
            | [] => "%!s(MISSING)" +:+ Sprintf rest' []
            end
          else String c (Sprintf rest args)
      | EmptyString => String c EmptyString
      end
  end.

End fmt.

(** ** Control flow of a function body *)

(** A statement of a Go function either falls through to the next one
    with a value, returns from the function, or panics. *)
Inductive flow (A : Type) : Type :=
| Next (a : A)
| Return (err : option error)
| Panic.
Arguments Next {A} a.
Arguments Return {A} err.
Arguments Panic {A}.

#[global] Instance flow_ret : MRet flow := fun _ a => Next a.
#[global] Instance flow_bind : MBind flow := fun _ _ k s =>
  match s with
  | Next a => k a
  | Return err => Return err
  | Panic => Panic
  end.

(** Reading through a pointer: a nil pointer dereference panics. *)
Definition deref {A : Type} (p : option A) : flow A :=
  match p with
  | Some a => Next a
  | None => Panic
  end.

(** [v, err := call; if err != nil { return onErr(err) }]. *)
Definition attempt {A : Type} (call : result A) (onErr : error -> error) : flow A :=
  match call with
  | Ok v => Next v
  | Err err => Return (Some (onErr err))
  end.

(** How a call of a method of the asset ends. *)
Inductive outcome : Type :=
| Returned (err : option error)
| Panicked.

(** ** The asset *)

Module manifests.

Definition cloudProviderConfigDataKey : string := "config".
Definition cloudProviderConfigCABundleDataKey : string := "ca-bundle.pem".
Definition cloudProviderEndpointsKey : string := "endpoints".

(** [CloudProviderConfig] generates the cloud-provider-config.yaml files. *)
Record CloudProviderConfig : Type := {
  ConfigMap : option corev1.ConfigMap;
  File : option asset.File;
}.

(** The dependencies as [dependencies.Get] hands them out. *)
Record Parents (U : Type) : Type := {
  Get_InstallConfig : installconfig.InstallConfig U;
  Get_ClusterID : installconfig.ClusterID;
}.
Arguments Get_InstallConfig {U} _.
Arguments Get_ClusterID {U} _.

(** [Name] returns a human friendly name for the asset. *)
Definition Name (cpc : CloudProviderConfig) : string := "Cloud Provider Config".

Section Asset.
Context {U Env : Type} `{X : Externals U Env}.

Definition cloudProviderConfigFileName : string :=
  filepath_Join manifestDir "cloud-provider-config.yaml".

(** [Generate] generates the CloudProviderConfig.  The asset is written
    only by the two assignments that end the method; before them every
    path works on the local [cm].

    [installConfig.Config] and the session that [Session] returns with a
    nil error are taken to be there.  The per-platform pointers may be
    nil: a field read through one panics, and so does a method called
    through one ([Session], [AccountID], [ClusterResourceGroupName]),
    their bodies reading the receiver. *)
Definition Generate (cpc : CloudProviderConfig) (dependencies : Parents U)
  : CloudProviderConfig * outcome :=
  let installConfig := Get_InstallConfig dependencies in
  let clusterID := Get_ClusterID dependencies in
  let Config := installconfig.Config installConfig in
  let cm :=
    {| corev1.TypeMeta :=
         {| metav1.APIVersion := corev1_SchemeGroupVersion_String;
            metav1.Kind := "ConfigMap" |};
       corev1.ObjectMeta :=
         {| metav1.Namespace := "openshift-config";
            metav1.Name := "cloud-provider-config" |};
       corev1.Data := ∅ |} in
  let name := Platform_Name (types.Platform Config) in
  let switch : flow corev1.ConfigMap :=
    if decide (name ∈ [libvirttypes_Name; nonetypes_Name;
                       baremetaltypes_Name; ovirttypes_Name]) then
      Return None
    else if decide (name = awstypes_Name) then
      (* Store the additional trust bundle in the ca-bundle.pem key if the
         cluster is being installed on a C2S region. *)
      let trustBundle := types.AdditionalTrustBundle Config in
      if decide (trustBundle = "") then Return None else
      AWS ← deref (types.AWS (types.Platform Config));
      if decide (awstypes.Region AWS ∉ awstypes_C2SRegions) then Return None else
      Next (corev1.set_Data cloudProviderConfigCABundleDataKey trustBundle cm)
    else if decide (name = openstacktypes_Name) then
      '(cloudProviderConfigData, cloudProviderConfigCABundleData) ←
        attempt (openstackmanifests_GenerateCloudProviderConfig Config)
            (λ err, errors.Wrap err "failed to generate OpenStack provider config");
      let cm := corev1.set_Data cloudProviderConfigDataKey cloudProviderConfigData cm in
      if decide (cloudProviderConfigCABundleData ≠ "") then
        Next (corev1.set_Data cloudProviderConfigCABundleDataKey
                cloudProviderConfigCABundleData cm)
      else Next cm
    else if decide (name = azuretypes_Name) then
      metadata ← deref (installconfig.Azure installConfig);
      session ← attempt (icazure_Session metadata)
                    (λ err, errors.Wrap err "could not get azure session");
      Azure ← deref (types.Azure (types.Platform Config));
      let nsg := fmt.Sprintf "%s-nsg" [installconfig.InfraID clusterID] in
      let nrg := azuretypes_ClusterResourceGroupName Azure
                   (installconfig.InfraID clusterID) in
      let nrg := if decide (azuretypes.NetworkResourceGroupName Azure ≠ "")
                 then azuretypes.NetworkResourceGroupName Azure else nrg in
      let vnet := fmt.Sprintf "%s-vnet" [installconfig.InfraID clusterID] in
      let vnet := if decide (azuretypes.VirtualNetwork Azure ≠ "")
                  then azuretypes.VirtualNetwork Azure else vnet in
      let subnet := fmt.Sprintf "%s-worker-subnet" [installconfig.InfraID clusterID] in
      let subnet := if decide (azuretypes.ComputeSubnet Azure ≠ "")
                    then azuretypes.ComputeSubnet Azure else subnet in
      azureConfig ←
        attempt (azure_JSON
               {| azure.CloudName := azuretypes.CloudName Azure;
                  azure.ResourceGroupName :=
                    azuretypes_ClusterResourceGroupName Azure
                      (installconfig.InfraID clusterID);
                  azure.GroupLocation := azuretypes.Region Azure;
                  azure.ResourcePrefix := installconfig.InfraID clusterID;
                  azure.SubscriptionID :=
                    icazure.SubscriptionID (icazure.Credentials session);
                  azure.TenantID := icazure.TenantID (icazure.Credentials session);
                  azure.AADClientID := icazure.ClientID (icazure.Credentials session);
                  azure.AADClientSecret :=
                    icazure.ClientSecret (icazure.Credentials session);
                  azure.NetworkResourceGroupName := nrg;
                  azure.NetworkSecurityGroupName := nsg;
                  azure.VirtualNetworkName := vnet;
                  azure.SubnetName := subnet;
                  azure.ResourceManagerEndpoint := azuretypes.ARMEndpoint Azure;
                  azure.ARO := azuretypes_IsARO Azure |})
            (λ err, errors.Wrap err "could not create cloud provider config");
      let cm := corev1.set_Data cloudProviderConfigDataKey azureConfig cm in
      if decide (icazure.CloudName metadata = azuretypes_StackCloud) then
        b ← attempt (json_Marshal (icazure.Environment session))
                (λ err, errors.Wrap err "could not serialize Azure Stack endpoints");
        Next (corev1.set_Data cloudProviderEndpointsKey (string_of_list_byte b) cm)
      else Next cm
    else if decide (name = gcptypes_Name) then
      let subnet := fmt.Sprintf "%s-worker-subnet" [installconfig.InfraID clusterID] in
      GCP ← deref (types.GCP (types.Platform Config));
      let subnet := if decide (gcptypes.ComputeSubnet GCP ≠ "")
                    then gcptypes.ComputeSubnet GCP else subnet in
      gcpConfig ←
        attempt (gcpmanifests_CloudProviderConfig (installconfig.InfraID clusterID)
               (gcptypes.ProjectID GCP) subnet)
            (λ err, errors.Wrap err "could not create cloud provider config");
      Next (corev1.set_Data cloudProviderConfigDataKey gcpConfig cm)
    else if decide (name = ibmcloudtypes_Name) then
      metadata ← deref (installconfig.IBMCloud installConfig);
      accountID ← attempt (icibmcloud_AccountID metadata) (λ err, err);
      IBMCloud ← deref (types.IBMCloud (types.Platform Config));
      ibmcloudConfig ←
        attempt (ibmcloudmanifests_CloudProviderConfig (installconfig.InfraID clusterID)
               accountID (ibmcloudtypes.Region IBMCloud))
            (λ err, errors.Wrap err "could not create cloud provider config");
      Next (corev1.set_Data cloudProviderConfigDataKey ibmcloudConfig cm)
    else if decide (name = vspheretypes_Name) then
      VSphere ← deref (types.VSphere (types.Platform Config));
      let folderPath := vspheretypes.Folder VSphere in
      let folderPath :=
        if decide (String.length folderPath = 0) then
          let dataCenter := vspheretypes.Datacenter VSphere in
          fmt.Sprintf "/%s/vm/%s" [dataCenter; installconfig.InfraID clusterID]
        else folderPath in
      vsphereConfig ←
        attempt (vspheremanifests_CloudProviderConfig folderPath VSphere)
            (λ err, errors.Wrap err "could not create cloud provider config");
      Next (corev1.set_Data cloudProviderConfigDataKey vsphereConfig cm)
    else if decide (name = kubevirttypes_Name) then
      Kubevirt ← deref (types.Kubevirt (types.Platform Config));
      kubevirtConfig ←
        attempt (kubevirtmanifests_JSON
               {| kubevirtmanifests.Namespace := kubevirttypes.Namespace Kubevirt;
                  kubevirtmanifests.InfraID := installconfig.InfraID clusterID |})
            (λ err, errors.Wrap err "could not create cloud provider config");
      Next (corev1.set_Data cloudProviderConfigDataKey kubevirtConfig cm)
    else
      Return (Some (errors.New "invalid Platform")) in
  match switch with
  | Next cm =>
      match yaml_Marshal cm with
      | Err err =>
          (cpc, Returned (Some (errors.Wrapf err
             (fmt.Sprintf "failed to create %s manifest" [Name cpc]))))
      | Ok cmData =>
          ({| ConfigMap := Some cm;
              File := Some {| asset.Filename := cloudProviderConfigFileName;
                              asset.Data := cmData |} |},
           Returned None)
      end
  | Return err => (cpc, Returned err)
  | Panic => (cpc, Panicked)
  end.

(** [Files] returns the files generated by the asset. *)
Definition Files (cpc : CloudProviderConfig) : list asset.File :=
  match File cpc with
  | Some file => [file]
  | None => []
  end.

(** [Load] loads the already-rendered files back from disk. *)
Definition Load (cpc : CloudProviderConfig) : CloudProviderConfig * (bool * option error) :=
  (cpc, (false, None)).

End Asset.

End manifests.

(** ** A concrete installation, to run the asset on

    One instance of [Externals], with the platform names and tables of
    the installer and small stand-ins for the serializers and the cloud
    look-ups.  The unread part of a struct is a string; for
    [types.PlatformStruct] it holds the name of the selected platform
    when that platform is one [Generate] does not look into. *)

Module Sample.
Import manifests.

Definition render (fields : list string) : string :=
  fold_right (λ field acc, field +:+ ";" +:+ acc) "" fields.

(** [Name] of [types.PlatformStruct]: the platform whose member is set. *)
Definition platformName (p : types.PlatformStruct string) : string :=
  if types.AWS p is Some _ then "aws"
  else if types.Azure p is Some _ then "azure"
  else if types.GCP p is Some _ then "gcp"
  else if types.IBMCloud p is Some _ then "ibmcloud"
  else if types.VSphere p is Some _ then "vsphere"
  else if types.Kubevirt p is Some _ then "kubevirt"
  else types.UnreadPlatforms p.

(** The account look-up fails for metadata without an account. *)
Definition accountID (m : icibmcloud.Metadata string) : result string :=
  if decide (icibmcloud.Unread m = "") then Err (errors.New "no account")
  else Ok (icibmcloud.Unread m).

(** The session look-up fails for a cloud that has no name. *)
Definition session (m : icazure.Metadata) : result (icazure.Session string) :=
  if decide (icazure.CloudName m = "") then Err (errors.New "no session")
  else Ok {| icazure.Credentials :=
               {| icazure.SubscriptionID := "sub"; icazure.TenantID := "tenant";
                  icazure.ClientID := "client"; icazure.ClientSecret := "secret" |};
             icazure.Environment := "endpoints of " +:+ icazure.CloudName m |}.

Definition azureJSON (c : azure.CloudProviderConfig) : result string :=
  Ok (render [azure.CloudName c; azure.ResourceGroupName c; azure.GroupLocation c;
              azure.ResourcePrefix c; azure.NetworkResourceGroupName c;
              azure.NetworkSecurityGroupName c; azure.VirtualNetworkName c;
              azure.SubnetName c]).

Definition yamlMarshal (cm : corev1.ConfigMap) : result (list Byte.byte) :=
  Ok (list_byte_of_string
        (render (metav1.Name (corev1.ObjectMeta cm)
                 :: map (λ kv, kv.1 +:+ "=" +:+ kv.2) (map_to_list (corev1.Data cm))))).

#[global] Instance externals : Externals string string := {|
  manifestDir := "manifests";
  filepath_Join := λ dir file, dir +:+ "/" +:+ file;
  corev1_SchemeGroupVersion_String := "v1";
  yaml_Marshal := yamlMarshal;
  json_Marshal := λ env, Ok (list_byte_of_string env);
  libvirttypes_Name := "libvirt";
  nonetypes_Name := "none";
  baremetaltypes_Name := "baremetal";
  ovirttypes_Name := "ovirt";
  awstypes_Name := "aws";
  openstacktypes_Name := "openstack";
  azuretypes_Name := "azure";
  gcptypes_Name := "gcp";
  ibmcloudtypes_Name := "ibmcloud";
  vspheretypes_Name := "vsphere";
  kubevirttypes_Name := "kubevirt";
  Platform_Name := platformName;
  awstypes_C2SRegions := {[ "us-iso-east-1"; "us-isob-east-1" ]};
  azuretypes_StackCloud := "AzureStackCloud";
  azuretypes_ClusterResourceGroupName := λ p infraID,
    if decide (azuretypes.Unread p ≠ "") then azuretypes.Unread p
    else infraID +:+ "-rg";
  azuretypes_IsARO := λ _, false;
  icazure_Session := session;
  icibmcloud_AccountID := accountID;
  openstackmanifests_GenerateCloudProviderConfig := λ c,
    Ok ("[Global]", types.AdditionalTrustBundle c);
  azure_JSON := azureJSON;
  gcpmanifests_CloudProviderConfig := λ infraID projectID subnet,
    Ok (render [infraID; projectID; subnet]);
  ibmcloudmanifests_CloudProviderConfig := λ infraID accountID region,
    Ok (render [infraID; accountID; region]);
  vspheremanifests_CloudProviderConfig := λ folderPath p,
    Ok (render [folderPath; vspheretypes.Datacenter p]);
  kubevirtmanifests_JSON := λ c,
    Ok (render [kubevirtmanifests.Namespace c; kubevirtmanifests.InfraID c]);
|}.

(** No platform member set; [other] names the platform. *)
Definition noPlatform (other : string) : types.PlatformStruct string :=
  {| types.AWS := None; types.Azure := None; types.GCP := None;
     types.IBMCloud := None; types.VSphere := None; types.Kubevirt := None;
     types.UnreadPlatforms := other |}.

Definition parents (trustBundle : string) (p : types.PlatformStruct string)
    (az : option icazure.Metadata) (ibm : option (icibmcloud.Metadata string))
  : Parents string :=
  {| Get_InstallConfig :=
       {| installconfig.Config :=
            {| types.AdditionalTrustBundle := trustBundle;
               types.Platform := p;
               types.Unread := "" |};
          installconfig.Azure := az;
          installconfig.IBMCloud := ibm |};
     Get_ClusterID := {| installconfig.InfraID := "abcde" |} |}.

Definition libvirtParents : Parents string :=
  parents "" (noPlatform "libvirt") None None.

Definition unknownParents : Parents string :=
  parents "" (noPlatform "") None None.

Definition awsPlatform (region : string) : types.PlatformStruct string :=
  {| types.AWS := Some {| awstypes.Region := region |};
     types.Azure := None; types.GCP := None;
     types.IBMCloud := None; types.VSphere := None; types.Kubevirt := None;
     types.UnreadPlatforms := "" |}.

Definition awsParents (trustBundle region : string) : Parents string :=
  parents trustBundle (awsPlatform region) None None.

Definition azureSettings (nrg vnet subnet : string) : azuretypes.Platform string :=
  {| azuretypes.CloudName := "AzurePublicCloud";
     azuretypes.Region := "westeurope";
     azuretypes.NetworkResourceGroupName := nrg;
     azuretypes.VirtualNetwork := vnet;
     azuretypes.ComputeSubnet := subnet;
     azuretypes.ARMEndpoint := "";
     azuretypes.Unread := "" |}.

Definition azureParents (cloud nrg vnet subnet : string) : Parents string :=
  parents ""
    {| types.AWS := None;
       types.Azure := Some (azureSettings nrg vnet subnet);
       types.GCP := None; types.IBMCloud := None; types.VSphere := None;
       types.Kubevirt := None; types.UnreadPlatforms := "" |}
    (Some {| icazure.CloudName := cloud |}) None.

Definition ibmcloudParents (account : string) : Parents string :=
  parents ""
    {| types.AWS := None; types.Azure := None; types.GCP := None;
       types.IBMCloud := Some {| ibmcloudtypes.Region := "eu-gb" |};
       types.VSphere := None; types.Kubevirt := None;
       types.UnreadPlatforms := "" |}
    None (Some {| icibmcloud.Unread := account |}).

(** An asset that has been generated once, for AWS in a C2S region. *)
Definition generated : CloudProviderConfig :=
  fst (Generate {| ConfigMap := None; File := None |}
         (awsParents "BUNDLE" "us-iso-east-1")).

(** Parents for the platforms whose case composes names locally. *)
Definition openstackParents (trustBundle : string) : Parents string :=
  parents trustBundle (noPlatform "openstack") None None.

Definition gcpParents (subnet : string) : Parents string :=
  parents ""
    {| types.AWS := None; types.Azure := None;
       types.GCP := Some {| gcptypes.ProjectID := "project";
                            gcptypes.ComputeSubnet := subnet |};
       types.IBMCloud := None; types.VSphere := None; types.Kubevirt := None;
       types.UnreadPlatforms := "" |}
    None None.

Definition vsphereParents (folder : string) : Parents string :=
  parents ""
    {| types.AWS := None; types.Azure := None; types.GCP := None;
       types.IBMCloud := None;
       types.VSphere := Some {| vspheretypes.Folder := folder;
                                vspheretypes.Datacenter := "dc1";
                                vspheretypes.Unread := "" |};
       types.Kubevirt := None; types.UnreadPlatforms := "" |}
    None None.

Definition kubevirtParents : Parents string :=
  parents ""
    {| types.AWS := None; types.Azure := None; types.GCP := None;
       types.IBMCloud := None; types.VSphere := None;
       types.Kubevirt := Some {| kubevirttypes.Namespace := "tenants" |};
       types.UnreadPlatforms := "" |}
    None None.

(** Azure metadata without the Azure settings of the config. *)
Definition azureMetadataOnly (cloud : string) : Parents string :=
  parents "" (noPlatform "azure") (Some {| icazure.CloudName := cloud |}) None.

(** The sample installation with other serializers. *)
Definition withSerializers
    (yaml : corev1.ConfigMap → result (list Byte.byte))
    (json : string → result (list Byte.byte)) : Externals string string := {|
  manifestDir := manifestDir (Externals := externals);
  filepath_Join := filepath_Join (Externals := externals);
  corev1_SchemeGroupVersion_String :=
    corev1_SchemeGroupVersion_String (Externals := externals);
  yaml_Marshal := yaml;
  json_Marshal := json;
  libvirttypes_Name := "libvirt";
  nonetypes_Name := "none";
  baremetaltypes_Name := "baremetal";
  ovirttypes_Name := "ovirt";
  awstypes_Name := "aws";
  openstacktypes_Name := "openstack";
  azuretypes_Name := "azure";
  gcptypes_Name := "gcp";
  ibmcloudtypes_Name := "ibmcloud";
  vspheretypes_Name := "vsphere";
  kubevirttypes_Name := "kubevirt";
  Platform_Name := platformName;
  awstypes_C2SRegions := awstypes_C2SRegions (Externals := externals);
  azuretypes_StackCloud := "AzureStackCloud";
  azuretypes_ClusterResourceGroupName :=
    azuretypes_ClusterResourceGroupName (Externals := externals);
  azuretypes_IsARO := azuretypes_IsARO (Externals := externals);
  icazure_Session := session;
  icibmcloud_AccountID := accountID;
  openstackmanifests_GenerateCloudProviderConfig :=
    openstackmanifests_GenerateCloudProviderConfig (Externals := externals);
  azure_JSON := azureJSON;
  gcpmanifests_CloudProviderConfig :=
    gcpmanifests_CloudProviderConfig (Externals := externals);
  ibmcloudmanifests_CloudProviderConfig :=
    ibmcloudmanifests_CloudProviderConfig (Externals := externals);
  vspheremanifests_CloudProviderConfig :=
    vspheremanifests_CloudProviderConfig (Externals := externals);
  kubevirtmanifests_JSON := kubevirtmanifests_JSON (Externals := externals);
|}.

(** [yaml.Marshal] fails. *)
Definition brokenYaml : Externals string string :=
  withSerializers (λ _, Err (errors.New "yaml: cannot marshal"))
    (λ env, Ok (list_byte_of_string env)).

(** [json.Marshal] fails. *)
Definition brokenJSON : Externals string string :=
  withSerializers yamlMarshal (λ _, Err (errors.New "json: cannot marshal")).

(** Azure Stack: the configured cloud name and the metadata built
    from it. *)
Definition azureStackParents : Parents string :=
  parents ""
    {| types.AWS := None;
       types.Azure :=
         Some {| azuretypes.CloudName := "AzureStackCloud";
                 azuretypes.Region := "local";
                 azuretypes.NetworkResourceGroupName := "";
                 azuretypes.VirtualNetwork := "";
                 azuretypes.ComputeSubnet := "";
                 azuretypes.ARMEndpoint := "https://management.local";
                 azuretypes.Unread := "" |};
       types.GCP := None; types.IBMCloud := None; types.VSphere := None;
       types.Kubevirt := None; types.UnreadPlatforms := "" |}
    (Some {| icazure.CloudName := "AzureStackCloud" |}) None.

End Sample.

(** ** Vocabulary of the statements *)

Section Vocabulary.
Import manifests.
Context {U Env : Type} `{X : Externals U Env}.

(** The value the switch of [Generate] inspects. *)
Definition selected (dependencies : Parents U) : string :=
  Platform_Name
    (types.Platform (installconfig.Config (Get_InstallConfig dependencies))).

(** The platforms for which [Generate] has nothing to write. *)
Definition noopNames : list string :=
  [libvirttypes_Name; nonetypes_Name; baremetaltypes_Name; ovirttypes_Name].

(** The ConfigMap of the asset around a given [data]. *)
Definition configMapOf (data : gmap string string) : corev1.ConfigMap :=
  {| corev1.TypeMeta :=
       {| metav1.APIVersion := corev1_SchemeGroupVersion_String;
          metav1.Kind := "ConfigMap" |};
     corev1.ObjectMeta :=
       {| metav1.Namespace := "openshift-config";
          metav1.Name := "cloud-provider-config" |};
     corev1.Data := data |}.

(** The asset after [Generate] has stored [cm], serialized as [cmData]. *)
Definition stored (cm : corev1.ConfigMap) (cmData : list Byte.byte)
  : CloudProviderConfig :=
  {| ConfigMap := Some cm;
     File := Some {| asset.Filename := cloudProviderConfigFileName;
                     asset.Data := cmData |} |}.

(** The zero value [&CloudProviderConfig{}], an asset that has not been
    generated. *)
Definition fresh : CloudProviderConfig :=
  {| ConfigMap := None; File := None |}.

(** The end of [Generate], from [yaml.Marshal] on, for the ConfigMap
    [cm] that the switch has filled. *)
Definition emit (cpc : CloudProviderConfig) (cm : corev1.ConfigMap)
  : CloudProviderConfig * outcome :=
  match yaml_Marshal cm with
  | Err err =>
      (cpc, Returned (Some (errors.Wrap err
                              "failed to create Cloud Provider Config manifest")))
  | Ok cmData => (stored cm cmData, Returned None)
  end.

(** The value of the struct literal that the Azure case serializes, with
    the locals [nsg], [nrg], [vnet] and [subnet] written out. *)
Definition azurePayload (Azure : azuretypes.Platform U) (infraID : string)
    (session : icazure.Session Env) : azure.CloudProviderConfig :=
  {| azure.CloudName := azuretypes.CloudName Azure;
     azure.ResourceGroupName := azuretypes_ClusterResourceGroupName Azure infraID;
     azure.GroupLocation := azuretypes.Region Azure;
     azure.ResourcePrefix := infraID;
     azure.SubscriptionID := icazure.SubscriptionID (icazure.Credentials session);
     azure.TenantID := icazure.TenantID (icazure.Credentials session);
     azure.AADClientID := icazure.ClientID (icazure.Credentials session);
     azure.AADClientSecret := icazure.ClientSecret (icazure.Credentials session);
     azure.NetworkResourceGroupName :=
       if decide (azuretypes.NetworkResourceGroupName Azure ≠ "")
       then azuretypes.NetworkResourceGroupName Azure
       else azuretypes_ClusterResourceGroupName Azure infraID;
     azure.NetworkSecurityGroupName := infraID +:+ "-nsg";
     azure.VirtualNetworkName :=
       if decide (azuretypes.VirtualNetwork Azure ≠ "")
       then azuretypes.VirtualNetwork Azure else infraID +:+ "-vnet";
     azure.SubnetName :=
       if decide (azuretypes.ComputeSubnet Azure ≠ "")
       then azuretypes.ComputeSubnet Azure else infraID +:+ "-worker-subnet";
     azure.ResourceManagerEndpoint := azuretypes.ARMEndpoint Azure;
     azure.ARO := azuretypes_IsARO Azure |}.

(** [Generate] serializes [payload] into the [config] key: a pass that
    succeeds stores the serialization, and a failure of the
    serialization is the failure of the pass. *)
Definition config_is_JSON_of (cpc : CloudProviderConfig) (dependencies : Parents U)
    (payload : azure.CloudProviderConfig) : Prop :=
  (∀ cpc', Generate cpc dependencies = (cpc', Returned None) →
     ∃ cm azureConfig,
       ConfigMap cpc' = Some cm ∧ azure_JSON payload = Ok azureConfig ∧
       corev1.Data cm !! cloudProviderConfigDataKey = Some azureConfig) ∧
  (∀ err, azure_JSON payload = Err err →
     Generate cpc dependencies =
       (cpc, Returned (Some (errors.Wrap err "could not create cloud provider config")))).

(** A ConfigMap with at least one of the three keys of the asset. *)
Definition has_data (cm : corev1.ConfigMap) : Prop :=
  corev1.Data cm ≠ ∅ ∧
  (is_Some (corev1.Data cm !! cloudProviderConfigDataKey) ∨
   is_Some (corev1.Data cm !! cloudProviderConfigCABundleDataKey) ∨
   is_Some (corev1.Data cm !! cloudProviderEndpointsKey)).

(** The calls of [Generate] whose failure is wrapped, each with the
    message it is wrapped in. *)
Inductive failed_step (dependencies : Parents U) : error → string → Prop :=
| openstack_config_failed err :
    openstackmanifests_GenerateCloudProviderConfig
      (installconfig.Config (Get_InstallConfig dependencies)) = Err err →
    failed_step dependencies err "failed to generate OpenStack provider config"
| azure_session_failed metadata err :
    installconfig.Azure (Get_InstallConfig dependencies) = Some metadata →
    icazure_Session metadata = Err err →
    failed_step dependencies err "could not get azure session"
| azure_config_failed payload err :
    azure_JSON payload = Err err →
    failed_step dependencies err "could not create cloud provider config"
| azure_endpoints_failed environment err :
    json_Marshal environment = Err err →
    failed_step dependencies err "could not serialize Azure Stack endpoints"
| gcp_config_failed projectID subnet err :
    gcpmanifests_CloudProviderConfig
      (installconfig.InfraID (Get_ClusterID dependencies)) projectID subnet = Err err →
    failed_step dependencies err "could not create cloud provider config"
| ibmcloud_config_failed accountID region err :
    ibmcloudmanifests_CloudProviderConfig
      (installconfig.InfraID (Get_ClusterID dependencies)) accountID region = Err err →
    failed_step dependencies err "could not create cloud provider config"
| vsphere_config_failed folderPath VSphere err :
    vspheremanifests_CloudProviderConfig folderPath VSphere = Err err →
    failed_step dependencies err "could not create cloud provider config"
| kubevirt_config_failed payload err :
    kubevirtmanifests_JSON payload = Err err →
    failed_step dependencies err "could not create cloud provider config"
| manifest_failed cm err :
    yaml_Marshal cm = Err err →
    failed_step dependencies err "failed to create Cloud Provider Config manifest".

(** A property of the way a piece of a function body ends: [onNext] of
    the value it falls through with, [onErr] of the error it returns.
    Returning [nil] and panicking satisfy it. *)
Definition ends {A : Type} (onNext : A → Prop) (onErr : error → Prop)
    (body : flow A) : Prop :=
  match body with
  | Next a => onNext a
  | Return (Some err) => onErr err
  | Return None => True
  | Panic => True
  end.

(** Where an error returned by [Generate] comes from: the account
    look-up of IBM Cloud, returned as it is; the default case of the
    switch; or a failed step, wrapped in the message of the step. *)
Definition error_origin (dependencies : Parents U) (err : error) : Prop :=
  (selected dependencies = ibmcloudtypes_Name ∧
   (∃ metadata,
      installconfig.IBMCloud (Get_InstallConfig dependencies) = Some metadata ∧
      icibmcloud_AccountID metadata = Err err)) ∨
  ((selected dependencies ∉ platformNames) ∧ err = errors.New "invalid Platform") ∨
  (∃ cause message,
     err = errors.Wrap cause message ∧ failed_step dependencies cause message).

(** The reading of the file list after a no-op platform that does not
    hold: an empty list whatever the asset held before. *)
Definition noop_empties_file_list : Prop :=
  ∀ cpc dependencies,
    selected dependencies ∈ noopNames →
    snd (Generate cpc dependencies) = Returned None ∧
    Files (fst (Generate cpc dependencies)) = [].

(** A piece of a function body that does not panic, and falls through
    only with a value that has [onNext]. *)
Definition no_panic {A : Type} (onNext : A → Prop) (body : flow A) : Prop :=
  match body with
  | Next a => onNext a
  | Return _ => True
  | Panic => False
  end.

(** The pointers that the case of the selected platform reads are set:
    the platform's member of [types.Platform] and, for Azure and IBM
    Cloud, the metadata of [installconfig.InstallConfig].  AWS reads its
    member only when there is a trust bundle. *)
Definition platform_present (dependencies : Parents U) : Prop :=
  let installConfig := Get_InstallConfig dependencies in
  let platform := types.Platform (installconfig.Config installConfig) in
  let name := selected dependencies in
  (name = awstypes_Name →
     types.AdditionalTrustBundle (installconfig.Config installConfig) ≠ "" →
     is_Some (types.AWS platform)) ∧
  (name = azuretypes_Name →
     is_Some (installconfig.Azure installConfig) ∧ is_Some (types.Azure platform)) ∧
  (name = gcptypes_Name → is_Some (types.GCP platform)) ∧
  (name = ibmcloudtypes_Name →
     is_Some (installconfig.IBMCloud installConfig) ∧
     is_Some (types.IBMCloud platform)) ∧
  (name = vspheretypes_Name → is_Some (types.VSphere platform)) ∧
  (name = kubevirttypes_Name → is_Some (types.Kubevirt platform)).

(** What the keys of a ConfigMap filled by the switch say about the
    platform: the metadata is the fixed one, there are no keys but the
    three of the asset, "endpoints" is Azure's, "ca-bundle.pem" is AWS's
    or OpenStack's, and only AWS leaves "config" out. *)
Definition keys_tell_platform (dependencies : Parents U) (cm : corev1.ConfigMap)
  : Prop :=
  cm = configMapOf (corev1.Data cm) ∧
  dom (corev1.Data cm) ⊆
    ({[ cloudProviderConfigDataKey; cloudProviderConfigCABundleDataKey;
        cloudProviderEndpointsKey ]} : gset string) ∧
  (is_Some (corev1.Data cm !! cloudProviderEndpointsKey) →
     selected dependencies = azuretypes_Name) ∧
  (is_Some (corev1.Data cm !! cloudProviderConfigCABundleDataKey) →
     selected dependencies = awstypes_Name ∨
     selected dependencies = openstacktypes_Name) ∧
  (corev1.Data cm !! cloudProviderConfigDataKey = None →
     selected dependencies = awstypes_Name).

(** The two fields of the asset belong together: both unset, or a
    ConfigMap with the fixed metadata and the file that holds its
    serialization under the fixed name. *)
Definition consistent (cpc : CloudProviderConfig) : Prop :=
  match ConfigMap cpc, File cpc with
  | None, None => True
  | Some cm, Some file =>
      cm = configMapOf (corev1.Data cm) ∧
      asset.Filename file = cloudProviderConfigFileName ∧
      yaml_Marshal cm = Ok (asset.Data file)
  | _, _ => False
  end.

(** A piece of a function body that returns [nil] only when [onNil]
    holds, and falls through only with a value that has [onNext]. *)
Definition nil_only {A : Type} (onNil : Prop) (onNext : A → Prop)
    (body : flow A) : Prop :=
  match body with
  | Next a => onNext a
  | Return None => onNil
  | Return (Some _) => True
  | Panic => True
  end.

(** The configurations for which the switch returns [nil]: a platform
    without a provider config, or AWS without a trust bundle or outside
    the C2S regions. *)
Definition nothing_to_generate (dependencies : Parents U) : Prop :=
  let Config := installconfig.Config (Get_InstallConfig dependencies) in
  selected dependencies ∈ noopNames ∨
  (selected dependencies = awstypes_Name ∧
   (types.AdditionalTrustBundle Config = "" ∨
    ∃ AWS, types.AWS (types.Platform Config) = Some AWS ∧
           awstypes.Region AWS ∉ awstypes_C2SRegions)).

(** The ConfigMap that the switch of [Generate] falls through with, arm
    by arm: the calls that answered and the entries they fill. *)
Inductive fills (dependencies : Parents U) : corev1.ConfigMap → Prop :=
| fills_aws AWS :
    let Config := installconfig.Config (Get_InstallConfig dependencies) in
    selected dependencies = awstypes_Name →
    types.AdditionalTrustBundle Config ≠ "" →
    types.AWS (types.Platform Config) = Some AWS →
    awstypes.Region AWS ∈ awstypes_C2SRegions →
    fills dependencies
      (configMapOf {[ cloudProviderConfigCABundleDataKey :=
                        types.AdditionalTrustBundle Config ]})
| fills_openstack config :
    selected dependencies = openstacktypes_Name →
    openstackmanifests_GenerateCloudProviderConfig
      (installconfig.Config (Get_InstallConfig dependencies)) = Ok (config, "") →
    fills dependencies (configMapOf {[ cloudProviderConfigDataKey := config ]})
| fills_openstack_bundle config caBundle :
    selected dependencies = openstacktypes_Name →
    openstackmanifests_GenerateCloudProviderConfig
      (installconfig.Config (Get_InstallConfig dependencies))
      = Ok (config, caBundle) →
    caBundle ≠ "" →
    fills dependencies
      (configMapOf (<[ cloudProviderConfigCABundleDataKey := caBundle ]>
                      {[ cloudProviderConfigDataKey := config ]}))
| fills_azure metadata session Azure azureConfig :
    let installConfig := Get_InstallConfig dependencies in
    selected dependencies = azuretypes_Name →
    installconfig.Azure installConfig = Some metadata →
    icazure_Session metadata = Ok session →
    types.Azure (types.Platform (installconfig.Config installConfig)) = Some Azure →
    azure_JSON (azurePayload Azure
                  (installconfig.InfraID (Get_ClusterID dependencies)) session)
      = Ok azureConfig →
    icazure.CloudName metadata ≠ azuretypes_StackCloud →
    fills dependencies (configMapOf {[ cloudProviderConfigDataKey := azureConfig ]})
| fills_azure_stack metadata session Azure azureConfig b :
    let installConfig := Get_InstallConfig dependencies in
    selected dependencies = azuretypes_Name →
    installconfig.Azure installConfig = Some metadata →
    icazure_Session metadata = Ok session →
    types.Azure (types.Platform (installconfig.Config installConfig)) = Some Azure →
    azure_JSON (azurePayload Azure
                  (installconfig.InfraID (Get_ClusterID dependencies)) session)
      = Ok azureConfig →
    icazure.CloudName metadata = azuretypes_StackCloud →
    json_Marshal (icazure.Environment session) = Ok b →
    fills dependencies
      (configMapOf (<[ cloudProviderEndpointsKey := string_of_list_byte b ]>
                      {[ cloudProviderConfigDataKey := azureConfig ]}))
| fills_gcp GCP gcpConfig :
    let infraID := installconfig.InfraID (Get_ClusterID dependencies) in
    selected dependencies = gcptypes_Name →
    types.GCP (types.Platform (installconfig.Config (Get_InstallConfig dependencies)))
      = Some GCP →
    gcpmanifests_CloudProviderConfig infraID (gcptypes.ProjectID GCP)
      (if decide (gcptypes.ComputeSubnet GCP ≠ "") then gcptypes.ComputeSubnet GCP
       else fmt.Sprintf "%s-worker-subnet" [infraID])
      = Ok gcpConfig →
    fills dependencies (configMapOf {[ cloudProviderConfigDataKey := gcpConfig ]})
| fills_ibmcloud metadata accountID IBMCloud ibmcloudConfig :
    let installConfig := Get_InstallConfig dependencies in
    selected dependencies = ibmcloudtypes_Name →
    installconfig.IBMCloud installConfig = Some metadata →
    icibmcloud_AccountID metadata = Ok accountID →
    types.IBMCloud (types.Platform (installconfig.Config installConfig))
      = Some IBMCloud →
    ibmcloudmanifests_CloudProviderConfig
      (installconfig.InfraID (Get_ClusterID dependencies)) accountID
      (ibmcloudtypes.Region IBMCloud) = Ok ibmcloudConfig →
    fills dependencies
      (configMapOf {[ cloudProviderConfigDataKey := ibmcloudConfig ]})
| fills_vsphere VSphere vsphereConfig :
    selected dependencies = vspheretypes_Name →
    types.VSphere
      (types.Platform (installconfig.Config (Get_InstallConfig dependencies)))
      = Some VSphere →
    vspheremanifests_CloudProviderConfig
      (if decide (String.length (vspheretypes.Folder VSphere) = 0)
       then fmt.Sprintf "/%s/vm/%s"
              [vspheretypes.Datacenter VSphere;
               installconfig.InfraID (Get_ClusterID dependencies)]
       else vspheretypes.Folder VSphere)
      VSphere = Ok vsphereConfig →
    fills dependencies
      (configMapOf {[ cloudProviderConfigDataKey := vsphereConfig ]})
| fills_kubevirt Kubevirt kubevirtConfig :
    selected dependencies = kubevirttypes_Name →
    types.Kubevirt
      (types.Platform (installconfig.Config (Get_InstallConfig dependencies)))
      = Some Kubevirt →
    kubevirtmanifests_JSON
      {| kubevirtmanifests.Namespace := kubevirttypes.Namespace Kubevirt;
         kubevirtmanifests.InfraID :=
           installconfig.InfraID (Get_ClusterID dependencies) |}
      = Ok kubevirtConfig →
    fills dependencies
      (configMapOf {[ cloudProviderConfigDataKey := kubevirtConfig ]}).

(** The steps of [Generate] other than the account look-up, each with
    the call that fails at it on the selected platform, the error of
    that call and the message of the step. *)
Inductive wrapped_step (dependencies : Parents U) : error → string → Prop :=
| step_openstack err :
    selected dependencies = openstacktypes_Name →
    openstackmanifests_GenerateCloudProviderConfig
      (installconfig.Config (Get_InstallConfig dependencies)) = Err err →
    wrapped_step dependencies err "failed to generate OpenStack provider config"
| step_azure_session metadata err :
    selected dependencies = azuretypes_Name →
    installconfig.Azure (Get_InstallConfig dependencies) = Some metadata →
    icazure_Session metadata = Err err →
    wrapped_step dependencies err "could not get azure session"
| step_azure_config metadata session Azure err :
    let installConfig := Get_InstallConfig dependencies in
    selected dependencies = azuretypes_Name →
    installconfig.Azure installConfig = Some metadata →
    icazure_Session metadata = Ok session →
    types.Azure (types.Platform (installconfig.Config installConfig)) = Some Azure →
    azure_JSON (azurePayload Azure
                  (installconfig.InfraID (Get_ClusterID dependencies)) session)
      = Err err →
    wrapped_step dependencies err "could not create cloud provider config"
| step_azure_endpoints metadata session Azure azureConfig err :
    let installConfig := Get_InstallConfig dependencies in
    selected dependencies = azuretypes_Name →
    installconfig.Azure installConfig = Some metadata →
    icazure_Session metadata = Ok session →
    types.Azure (types.Platform (installconfig.Config installConfig)) = Some Azure →
    azure_JSON (azurePayload Azure
                  (installconfig.InfraID (Get_ClusterID dependencies)) session)
      = Ok azureConfig →
    icazure.CloudName metadata = azuretypes_StackCloud →
    json_Marshal (icazure.Environment session) = Err err →
    wrapped_step dependencies err "could not serialize Azure Stack endpoints"
| step_gcp GCP err :
    let infraID := installconfig.InfraID (Get_ClusterID dependencies) in
    selected dependencies = gcptypes_Name →
    types.GCP (types.Platform (installconfig.Config (Get_InstallConfig dependencies)))
      = Some GCP →
    gcpmanifests_CloudProviderConfig infraID (gcptypes.ProjectID GCP)
      (if decide (gcptypes.ComputeSubnet GCP ≠ "") then gcptypes.ComputeSubnet GCP
       else fmt.Sprintf "%s-worker-subnet" [infraID])
      = Err err →
    wrapped_step dependencies err "could not create cloud provider config"
| step_ibmcloud metadata accountID IBMCloud err :
    let installConfig := Get_InstallConfig dependencies in
    selected dependencies = ibmcloudtypes_Name →
    installconfig.IBMCloud installConfig = Some metadata →
    icibmcloud_AccountID metadata = Ok accountID →
    types.IBMCloud (types.Platform (installconfig.Config installConfig))
      = Some IBMCloud →
    ibmcloudmanifests_CloudProviderConfig
      (installconfig.InfraID (Get_ClusterID dependencies)) accountID
      (ibmcloudtypes.Region IBMCloud) = Err err →
    wrapped_step dependencies err "could not create cloud provider config"
| step_vsphere VSphere err :
    selected dependencies = vspheretypes_Name →
    types.VSphere
      (types.Platform (installconfig.Config (Get_InstallConfig dependencies)))
      = Some VSphere →
    vspheremanifests_CloudProviderConfig
      (if decide (String.length (vspheretypes.Folder VSphere) = 0)
       then fmt.Sprintf "/%s/vm/%s"
              [vspheretypes.Datacenter VSphere;
               installconfig.InfraID (Get_ClusterID dependencies)]
       else vspheretypes.Folder VSphere)
      VSphere = Err err →
    wrapped_step dependencies err "could not create cloud provider config"
| step_kubevirt Kubevirt err :
    selected dependencies = kubevirttypes_Name →
    types.Kubevirt
      (types.Platform (installconfig.Config (Get_InstallConfig dependencies)))
      = Some Kubevirt →
    kubevirtmanifests_JSON
      {| kubevirtmanifests.Namespace := kubevirttypes.Namespace Kubevirt;
         kubevirtmanifests.InfraID :=
           installconfig.InfraID (Get_ClusterID dependencies) |}
      = Err err →
    wrapped_step dependencies err "could not create cloud provider config"
| step_manifest cm err :
    fills dependencies cm →
    yaml_Marshal cm = Err err →
    wrapped_step dependencies err
      "failed to create Cloud Provider Config manifest".

(** The account look-up of IBM Cloud fails with [err]. *)
Definition account_lookup_fails (dependencies : Parents U) (err : error) : Prop :=
  selected dependencies = ibmcloudtypes_Name ∧
  ∃ metadata,
    installconfig.IBMCloud (Get_InstallConfig dependencies) = Some metadata ∧
    icibmcloud_AccountID metadata = Err err.

(** The cloud name of the Azure metadata is the configured one: the
    install config asset builds its Azure metadata from
    [Config.Azure.CloudName]. *)
Definition cloud_name_as_configured (dependencies : Parents U) : Prop :=
  let installConfig := Get_InstallConfig dependencies in
  ∀ metadata Azure,
    installconfig.Azure installConfig = Some metadata →
    types.Azure (types.Platform (installconfig.Config installConfig)) = Some Azure →
    icazure.CloudName metadata = azuretypes.CloudName Azure.

End Vocabulary.

(** ** Properties of [Generate] *)

Section Properties.
Import manifests.
Context {U Env : Type} `{X : Externals U Env}.
Implicit Types (cpc : CloudProviderConfig) (dependencies : Parents U).

(** *** Finding the case of the switch *)

(** All the inequalities between case constants that [DistinctNames]
    gives, as hypotheses. *)
Ltac split_distinct H :=
  unfold DistinctNames, platformNames in H;
  repeat (apply NoDup_cons in H as [? H]);
  repeat match goal with
         | Hn : _ ∉ _ :: _ |- _ => apply not_elem_of_cons in Hn as [? Hn]
         end.

(** Closes a goal in which the selected name meets two cases. *)
Ltac absurd_case :=
  exfalso;
  repeat match goal with
         | Hin : _ ∈ _ :: _ |- _ => apply elem_of_cons in Hin as [Hin | Hin]
         | Hin : _ ∈ [] |- _ => apply elem_of_nil in Hin
         | Hnin : _ ∉ _ :: _ |- _ => apply not_elem_of_cons in Hnin as [? Hnin]
         end;
  congruence.

(** One step of the control flow, without computing on the data. *)
Ltac run := cbn [mbind flow_bind mret flow_ret deref attempt].

(** Decides every test of the switch on the platform name, keeping the
    cases that the hypotheses allow. *)
Ltac find_case :=
  unfold Generate, selected, noopNames in *; cbn zeta;
  repeat match goal with
         | |- context [decide (Platform_Name ?p ∈ ?l)] =>
             destruct (decide (Platform_Name p ∈ l)); try absurd_case
         | |- context [decide (Platform_Name ?p = ?c)] =>
             destruct (decide (Platform_Name p = c)); try absurd_case
         end.

Lemma Generate_noop cpc dependencies :
  selected dependencies ∈ noopNames →
  Generate cpc dependencies = (cpc, Returned None).
Proof. intros Hsel. find_case. reflexivity. Qed.

Lemma manifest_message cpc :
  fmt.Sprintf "failed to create %s manifest" [Name cpc]
  = "failed to create Cloud Provider Config manifest".
Proof. reflexivity. Qed.

(** *** The platforms without a provider config *)

(** C5, as the code has it: for libvirt, none, baremetal and ovirt
    [Generate] returns [nil] and leaves the asset as it found it, so that
    [Files] returns afterwards what it returned before: the empty list on
    an asset that holds no file, in particular on a fresh one. *)
Theorem noop_platform_keeps_asset cpc dependencies :
  selected dependencies ∈ noopNames →
  Generate cpc dependencies = (cpc, Returned None) ∧
  Files (fst (Generate cpc dependencies)) = Files cpc ∧
  (File cpc = None → Files (fst (Generate cpc dependencies)) = []).
Proof.
  intros Hsel. rewrite (Generate_noop _ _ Hsel). cbn.
  split; [done|]. split; [done|].
  unfold Files. by intros ->.
Qed.

(** *** A platform name that no case matches *)

(** C4: a platform name outside the cases of the switch makes [Generate]
    return the error "invalid Platform" without touching the asset; on an
    asset that holds no file, [Files] is then empty. *)
Theorem unknown_platform_is_invalid cpc dependencies :
  selected dependencies ∉ platformNames →
  Generate cpc dependencies
    = (cpc, Returned (Some (errors.New "invalid Platform"))) ∧
  (∀ err, snd (Generate cpc dependencies) = Returned (Some err) →
     errors.Error err = "invalid Platform") ∧
  (File cpc = None → Files (fst (Generate cpc dependencies)) = []).
Proof.
  intros Hsel. unfold platformNames in Hsel.
  assert (Generate cpc dependencies
          = (cpc, Returned (Some (errors.New "invalid Platform")))) as ->.
  { find_case. reflexivity. }
  cbn. split; [done|]. split.
  - intros err [= <-]. reflexivity.
  - unfold Files. by intros ->.
Qed.

(** *** AWS *)

Lemma Generate_aws_skip_bundle (Hd : DistinctNames X) cpc dependencies :
  selected dependencies = awstypes_Name →
  types.AdditionalTrustBundle
    (installconfig.Config (Get_InstallConfig dependencies)) = "" →
  Generate cpc dependencies = (cpc, Returned None).
Proof.
  intros Hsel Htb. split_distinct Hd. find_case.
  rewrite decide_True by done. reflexivity.
Qed.

Lemma Generate_aws_skip_region (Hd : DistinctNames X) cpc dependencies AWS :
  selected dependencies = awstypes_Name →
  types.AWS (types.Platform (installconfig.Config (Get_InstallConfig dependencies)))
    = Some AWS →
  awstypes.Region AWS ∉ awstypes_C2SRegions →
  Generate cpc dependencies = (cpc, Returned None).
Proof.
  intros Hsel HAWS Hregion. split_distinct Hd. find_case.
  case_decide; [reflexivity|].
  rewrite HAWS. run. rewrite decide_True by done. reflexivity.
Qed.

Lemma Generate_aws_emit (Hd : DistinctNames X) cpc dependencies AWS :
  let trustBundle :=
    types.AdditionalTrustBundle
      (installconfig.Config (Get_InstallConfig dependencies)) in
  selected dependencies = awstypes_Name →
  trustBundle ≠ "" →
  types.AWS (types.Platform (installconfig.Config (Get_InstallConfig dependencies)))
    = Some AWS →
  awstypes.Region AWS ∈ awstypes_C2SRegions →
  Generate cpc dependencies
    = emit cpc (configMapOf {[ cloudProviderConfigCABundleDataKey := trustBundle ]}).
Proof.
  intros trustBundle Hsel Htb HAWS Hregion. subst trustBundle.
  split_distinct Hd. find_case.
  rewrite decide_False by done.
  rewrite HAWS. run. rewrite decide_False by (intros Hn; by apply Hn).
  unfold emit. reflexivity.
Qed.

(** C2: on AWS, [Generate] returns [nil] and produces nothing when the
    additional trust bundle is empty or the region is not a C2S region;
    with a trust bundle and a C2S region it stores one file, for the
    ConfigMap whose data is exactly the trust bundle under
    "ca-bundle.pem" (no "config" key).  [cmData] is what [yaml.Marshal]
    makes of that ConfigMap. *)
Theorem aws_trust_bundle_in_c2s (Hd : DistinctNames X) cpc dependencies :
  let Config := installconfig.Config (Get_InstallConfig dependencies) in
  let trustBundle := types.AdditionalTrustBundle Config in
  selected dependencies = awstypes_Name →
  (trustBundle = "" →
     Generate cpc dependencies = (cpc, Returned None) ∧
     Files (fst (Generate fresh dependencies)) = []) ∧
  (∀ AWS, types.AWS (types.Platform Config) = Some AWS →
     awstypes.Region AWS ∉ awstypes_C2SRegions →
     Generate cpc dependencies = (cpc, Returned None) ∧
     Files (fst (Generate fresh dependencies)) = []) ∧
  (∀ AWS cmData, types.AWS (types.Platform Config) = Some AWS →
     trustBundle ≠ "" →
     awstypes.Region AWS ∈ awstypes_C2SRegions →
     let cm := configMapOf {[ cloudProviderConfigCABundleDataKey := trustBundle ]} in
     yaml_Marshal cm = Ok cmData →
     Generate cpc dependencies = (stored cm cmData, Returned None) ∧
     Files (fst (Generate cpc dependencies))
       = [ {| asset.Filename := cloudProviderConfigFileName;
              asset.Data := cmData |} ] ∧
     corev1.Data cm = {[ "ca-bundle.pem" := trustBundle ]} ∧
     corev1.Data cm !! "config" = None).
Proof.
  intros Config trustBundle Hsel. split; [|split].
  - intros Htb. by rewrite !(Generate_aws_skip_bundle Hd _ _ Hsel Htb).
  - intros AWS HAWS Hregion.
    by rewrite !(Generate_aws_skip_region Hd _ _ _ Hsel HAWS Hregion).
  - intros AWS cmData HAWS Htb Hregion cm Hyaml.
    rewrite (Generate_aws_emit Hd _ _ _ Hsel Htb HAWS Hregion).
    subst cm trustBundle Config. unfold emit. rewrite Hyaml.
    repeat split.
Qed.

(** *** Failing passes *)

(** C3: when [Generate] returns an error, whatever the platform and
    whichever call failed, the asset is the one it was called on: its
    [ConfigMap] and [File] fields are as before. *)
Theorem failed_generate_keeps_asset cpc dependencies cpc' err :
  Generate cpc dependencies = (cpc', Returned (Some err)) →
  cpc' = cpc ∧ ConfigMap cpc' = ConfigMap cpc ∧ File cpc' = File cpc.
Proof.
  unfold Generate. cbn zeta.
  match goal with
  | |- match ?switch with _ => _ end = _ → _ => destruct switch as [cm|ret|]
  end.
  - destruct (yaml_Marshal cm); intros [= <- _]; done.
  - intros [= <- _]; done.
  - discriminate.
Qed.

(** *** Azure *)

(** The Azure case, once the session is there. *)
Lemma Generate_azure (Hd : DistinctNames X) cpc dependencies metadata session Azure :
  let installConfig := Get_InstallConfig dependencies in
  let infraID := installconfig.InfraID (Get_ClusterID dependencies) in
  selected dependencies = azuretypes_Name →
  installconfig.Azure installConfig = Some metadata →
  icazure_Session metadata = Ok session →
  types.Azure (types.Platform (installconfig.Config installConfig)) = Some Azure →
  Generate cpc dependencies =
    match azure_JSON (azurePayload Azure infraID session) with
    | Err err =>
        (cpc, Returned (Some (errors.Wrap err "could not create cloud provider config")))
    | Ok azureConfig =>
        if decide (icazure.CloudName metadata = azuretypes_StackCloud) then
          match json_Marshal (icazure.Environment session) with
          | Err err =>
              (cpc, Returned (Some (errors.Wrap err
                                      "could not serialize Azure Stack endpoints")))
          | Ok b =>
              emit cpc (configMapOf
                          (<[cloudProviderEndpointsKey := string_of_list_byte b]>
                             {[cloudProviderConfigDataKey := azureConfig]}))
          end
        else emit cpc (configMapOf {[cloudProviderConfigDataKey := azureConfig]})
    end.
Proof.
  intros installConfig infraID Hsel Hmeta Hsession HAzure.
  subst installConfig infraID.
  split_distinct Hd. find_case.
  rewrite Hmeta. run. rewrite Hsession. run. rewrite HAzure. run.
  change (fmt.Sprintf "%s-nsg" [?i]) with (i +:+ "-nsg").
  change (fmt.Sprintf "%s-vnet" [?i]) with (i +:+ "-vnet").
  change (fmt.Sprintf "%s-worker-subnet" [?i]) with (i +:+ "-worker-subnet").
  fold (azurePayload Azure (installconfig.InfraID (Get_ClusterID dependencies)) session).
  destruct (azure_JSON _) as [azureConfig|err]; run; [|reflexivity].
  case_decide; [|reflexivity].
  destruct (json_Marshal _) as [b|err]; run; reflexivity.
Qed.

Lemma Generate_azure_payload (Hd : DistinctNames X) cpc dependencies
    metadata session Azure :
  let installConfig := Get_InstallConfig dependencies in
  let infraID := installconfig.InfraID (Get_ClusterID dependencies) in
  selected dependencies = azuretypes_Name →
  installconfig.Azure installConfig = Some metadata →
  icazure_Session metadata = Ok session →
  types.Azure (types.Platform (installconfig.Config installConfig)) = Some Azure →
  config_is_JSON_of cpc dependencies (azurePayload Azure infraID session).
Proof.
  intros installConfig infraID Hsel Hmeta Hsession HAzure.
  pose proof (Generate_azure Hd cpc dependencies _ _ _ Hsel Hmeta Hsession HAzure)
    as HG.
  fold infraID in HG. split.
  - intros cpc'. rewrite HG.
    destruct (azure_JSON _) as [azureConfig|err]; [|discriminate].
    unfold emit. intros Hrun.
    case_decide.
    + destruct (json_Marshal _) as [b|err]; [|discriminate].
      destruct (yaml_Marshal _) as [cmData|err]; [|discriminate].
      injection Hrun as <-. eexists _, azureConfig.
      split; [reflexivity|]. split; [reflexivity|].
      cbn [corev1.Data configMapOf stored ConfigMap].
      rewrite lookup_insert_ne by done. apply lookup_singleton_eq.
    + destruct (yaml_Marshal _) as [cmData|err]; [|discriminate].
      injection Hrun as <-. eexists _, azureConfig.
      split; [reflexivity|]. split; [reflexivity|].
      apply lookup_singleton_eq.
  - intros err Herr. rewrite HG, Herr. reflexivity.
Qed.

(** A pass on Azure that succeeds had a session and the Azure settings. *)
Lemma Generate_azure_success (Hd : DistinctNames X) cpc dependencies cpc' :
  let installConfig := Get_InstallConfig dependencies in
  selected dependencies = azuretypes_Name →
  Generate cpc dependencies = (cpc', Returned None) →
  ∃ metadata session Azure,
    installconfig.Azure installConfig = Some metadata ∧
    icazure_Session metadata = Ok session ∧
    types.Azure (types.Platform (installconfig.Config installConfig)) = Some Azure.
Proof.
  intros installConfig Hsel. subst installConfig.
  destruct (installconfig.Azure (Get_InstallConfig dependencies))
    as [metadata|] eqn:Hmeta.
  2: { split_distinct Hd. find_case. rewrite Hmeta. run. discriminate. }
  destruct (icazure_Session metadata) as [session|err] eqn:Hsession.
  2: { split_distinct Hd. find_case. rewrite Hmeta. run.
       rewrite Hsession. run. discriminate. }
  destruct (types.Azure
              (types.Platform (installconfig.Config (Get_InstallConfig dependencies))))
    as [Azure|] eqn:HAzure.
  2: { split_distinct Hd. find_case. rewrite Hmeta. run.
       rewrite Hsession. run. rewrite HAzure. run. discriminate. }
  intros _. by exists metadata, session, Azure.
Qed.

(** C1: on Azure, with the session there, the payload that [Generate]
    serializes into the "config" key names the network security group
    "<InfraID>-nsg" (the config has no override for it), and names the
    virtual network, the worker subnet and the network resource group by
    their defaults "<InfraID>-vnet", "<InfraID>-worker-subnet" and
    [ClusterResourceGroupName(InfraID)] when the config sets no override,
    and by the override, verbatim, when the config sets one. *)
Theorem azure_names_default_or_override (Hd : DistinctNames X) cpc dependencies
    metadata session Azure :
  let installConfig := Get_InstallConfig dependencies in
  let clusterID := installconfig.InfraID (Get_ClusterID dependencies) in
  selected dependencies = azuretypes_Name →
  installconfig.Azure installConfig = Some metadata →
  icazure_Session metadata = Ok session →
  types.Azure (types.Platform (installconfig.Config installConfig)) = Some Azure →
  ∃ payload,
    config_is_JSON_of cpc dependencies payload ∧
    azure.NetworkSecurityGroupName payload = clusterID +:+ "-nsg" ∧
    (azuretypes.VirtualNetwork Azure = "" →
       azure.VirtualNetworkName payload = clusterID +:+ "-vnet") ∧
    (azuretypes.ComputeSubnet Azure = "" →
       azure.SubnetName payload = clusterID +:+ "-worker-subnet") ∧
    (azuretypes.NetworkResourceGroupName Azure = "" →
       azure.NetworkResourceGroupName payload
         = azuretypes_ClusterResourceGroupName Azure clusterID) ∧
    (azuretypes.VirtualNetwork Azure ≠ "" →
       azure.VirtualNetworkName payload = azuretypes.VirtualNetwork Azure) ∧
    (azuretypes.ComputeSubnet Azure ≠ "" →
       azure.SubnetName payload = azuretypes.ComputeSubnet Azure) ∧
    (azuretypes.NetworkResourceGroupName Azure ≠ "" →
       azure.NetworkResourceGroupName payload
         = azuretypes.NetworkResourceGroupName Azure).
Proof.
  intros installConfig clusterID Hsel Hmeta Hsession HAzure.
  exists (azurePayload Azure clusterID session).
  split; [by eapply Generate_azure_payload|].
  cbn [azurePayload azure.NetworkSecurityGroupName azure.VirtualNetworkName
       azure.SubnetName azure.NetworkResourceGroupName].
  repeat split; intros Hoverride.
  all: first [ by rewrite decide_False by (by intros Hn) | by rewrite decide_True ].
Qed.


(** C7: on Azure, the data of the ConfigMap that a successful [Generate]
    stores has the key "endpoints" exactly when the configured cloud
    name is the Azure Stack cloud; its value is then the JSON of the
    session's environment as a string.  [Generate] tests the cloud name
    of the Azure metadata, [installConfig.Azure.CloudName], which the
    install config asset sets to the configured one
    ([cloud_name_as_configured]); the last part states the equivalence
    for the name that is tested. *)
Theorem azure_endpoints_iff_stack_cloud (Hd : DistinctNames X) cpc dependencies cpc' :
  let installConfig := Get_InstallConfig dependencies in
  selected dependencies = azuretypes_Name →
  cloud_name_as_configured dependencies →
  Generate cpc dependencies = (cpc', Returned None) →
  ∃ metadata session Azure cm,
    installconfig.Azure installConfig = Some metadata ∧
    icazure_Session metadata = Ok session ∧
    types.Azure (types.Platform (installconfig.Config installConfig))
      = Some Azure ∧
    ConfigMap cpc' = Some cm ∧
    (is_Some (corev1.Data cm !! "endpoints")
     ↔ azuretypes.CloudName Azure = azuretypes_StackCloud) ∧
    (azuretypes.CloudName Azure = azuretypes_StackCloud →
       ∃ b, json_Marshal (icazure.Environment session) = Ok b ∧
            corev1.Data cm !! "endpoints" = Some (string_of_list_byte b)) ∧
    (azuretypes.CloudName Azure ≠ azuretypes_StackCloud →
       corev1.Data cm !! "endpoints" = None) ∧
    (is_Some (corev1.Data cm !! "endpoints")
     ↔ icazure.CloudName metadata = azuretypes_StackCloud).
Proof.
  intros installConfig Hsel Hconfigured Hrun.
  destruct (Generate_azure_success Hd _ _ _ Hsel Hrun)
    as (metadata & session & Azure & Hmeta & Hsession & HAzure).
  pose proof (Hconfigured metadata Azure Hmeta HAzure) as Hname.
  rewrite (Generate_azure Hd _ _ _ _ _ Hsel Hmeta Hsession HAzure) in Hrun.
  destruct (azure_JSON _) as [azureConfig|err]; [|discriminate].
  unfold emit in Hrun. exists metadata, session, Azure.
  rewrite <- Hname.
  case_decide as Hcloud.
  - destruct (json_Marshal _) as [b|err] eqn:Hjson; [|discriminate].
    destruct (yaml_Marshal _) as [cmData|err]; [|discriminate].
    injection Hrun as <-. eexists.
    split; [done|]. split; [done|]. split; [done|]. split; [reflexivity|].
    cbn [corev1.Data configMapOf].
    change "endpoints" with cloudProviderEndpointsKey.
    rewrite lookup_insert_eq. split; [|split; [|split]].
    + split; [done|]. by eexists.
    + intros _. by exists b.
    + done.
    + split; [done|]. by eexists.
  - destruct (yaml_Marshal _) as [cmData|err]; [|discriminate].
    injection Hrun as <-. eexists.
    split; [done|]. split; [done|]. split; [done|]. split; [reflexivity|].
    cbn [corev1.Data configMapOf].
    assert (({[cloudProviderConfigDataKey := azureConfig]} : gmap string string)
              !! "endpoints" = None) as -> by by apply lookup_singleton_ne.
    split; [|split; [|split]].
    + split; [by intros [? ?]|done].
    + done.
    + done.
    + split; [by intros [? ?]|done].
Qed.

(** *** The switch as a whole *)

Lemma ends_bind {A B : Type} (onNext : B → Prop) (onErr : error → Prop)
    (body : flow A) (rest : A → flow B) :
  ends (λ a, ends onNext onErr (rest a)) onErr body →
  ends onNext onErr (body ≫= rest).
Proof. destruct body as [a|[err|]|]; done. Qed.

Lemma ends_deref {A : Type} (onNext : A → Prop) (onErr : error → Prop)
    (p : option A) :
  (∀ a, p = Some a → onNext a) → ends onNext onErr (deref p).
Proof. destruct p as [a|]; cbn; auto. Qed.

Lemma ends_attempt {A : Type} (onNext : A → Prop) (onErr : error → Prop)
    (call : result A) (wrap : error → error) :
  (∀ value, call = Ok value → onNext value) →
  (∀ err, call = Err err → onErr (wrap err)) →
  ends onNext onErr (attempt call wrap).
Proof. destruct call as [value|err]; cbn; auto. Qed.

Lemma has_data_set_Data (key value : string) (cm : corev1.ConfigMap) :
  key ∈ [cloudProviderConfigDataKey; cloudProviderConfigCABundleDataKey;
         cloudProviderEndpointsKey] →
  has_data (corev1.set_Data key value cm).
Proof.
  intros Hkey. split.
  - apply insert_non_empty.
  - cbn [corev1.set_Data corev1.Data].
    repeat (apply elem_of_cons in Hkey as [-> | Hkey]);
      [ left | right; left | right; right | by apply elem_of_nil in Hkey ];
      rewrite lookup_insert_eq; by eexists.
Qed.

(** Walks through a case of the switch, statement by statement. *)
Ltac walk :=
  repeat first
    [ apply ends_bind
    | apply ends_deref; intros ? ?
    | apply ends_attempt; [intros [? ?] ? || intros ? ? | intros ? ?]
    | progress cbn beta iota zeta
    | match goal with
      | |- ends _ _ (if decide ?P then _ else _) => destruct (decide P)
      end ].

(** What the switch hands to the end of [Generate], whatever the asset:
    a ConfigMap with data, an early return whose error has one of the
    three origins, or a panic. *)
Lemma Generate_switch dependencies :
  ∃ switch : flow corev1.ConfigMap,
    ends has_data (error_origin dependencies) switch ∧
    ∀ cpc, Generate cpc dependencies =
             match switch with
             | Next cm => emit cpc cm
             | Return err => (cpc, Returned err)
             | Panic => (cpc, Panicked)
             end.
Proof.
  eexists. split.
  2: { intros cpc. unfold Generate, emit. cbn zeta. reflexivity. }
  walk.
  all: try exact I.
  all: try (apply has_data_set_Data; set_solver).
  all: unfold error_origin, selected.
  all: try (right; right; eexists _, _; split; [reflexivity|];
            solve [econstructor; eassumption]).
  all: try (left; split; [assumption|]; eexists; split; eassumption).
  cbn [ends]. right; left. split; [|reflexivity].
  unfold platformNames.
  repeat match goal with
         | Hn : _ ∉ _ :: _ |- _ => apply not_elem_of_cons in Hn as [? Hn]
         end.
  repeat (apply not_elem_of_cons; split; [assumption|]).
  apply not_elem_of_nil.
Qed.

(** The three ways a call of [Generate] ends, the same for every asset
    it is called on: it returns early and stores nothing; it fails to
    serialize the ConfigMap and stores nothing; or it stores a ConfigMap
    with data and its serialization. *)
Lemma Generate_ways dependencies :
  (∃ o, (∀ err, o = Returned (Some err) → error_origin dependencies err) ∧
        ∀ cpc, Generate cpc dependencies = (cpc, o)) ∨
  (∃ cm cmData, has_data cm ∧ yaml_Marshal cm = Ok cmData ∧
                ∀ cpc, Generate cpc dependencies = (stored cm cmData, Returned None)).
Proof.
  destruct (Generate_switch dependencies) as (switch & Hends & HG).
  destruct switch as [cm|ret|]; cbn [ends] in Hends.
  - destruct (yaml_Marshal cm) as [cmData|err] eqn:Hyaml.
    + right. exists cm, cmData. split; [done|]. split; [done|].
      intros cpc. rewrite HG. unfold emit. by rewrite Hyaml.
    + left. eexists. split.
      2: { intros cpc. rewrite HG. unfold emit. rewrite Hyaml. reflexivity. }
      intros ? [= <-]. right; right. eexists _, _. split; [reflexivity|].
      by eapply manifest_failed.
  - left. exists (Returned ret). split; [|by intros; rewrite HG].
    intros err [= ->]. exact Hends.
  - left. exists Panicked. split; [done|]. by intros; rewrite HG.
Qed.

(** A ConfigMap that the switch fills is what the end of [Generate]
    serializes. *)
Lemma Generate_fills (Hd : DistinctNames X) cpc dependencies cm :
  fills dependencies cm → Generate cpc dependencies = emit cpc cm.
Proof.
  intros Hfills.
  destruct Hfills
    as [ AWS Config Hsel Hbundle HAWS Hregion
       | config Hsel Hgen
       | config caBundle Hsel Hgen Hbundle
       | metadata session Azure azureConfig installConfig
           Hsel Hmeta Hsession HAzure Hjson Hcloud
       | metadata session Azure azureConfig b installConfig
           Hsel Hmeta Hsession HAzure Hjson Hcloud Hendpoints
       | GCP gcpConfig infraID Hsel HGCP Hgen
       | metadata accountID IBMCloud ibmcloudConfig installConfig
           Hsel Hmeta Haccount HIBM Hgen
       | VSphere vsphereConfig Hsel HVSphere Hgen
       | Kubevirt kubevirtConfig Hsel HKubevirt Hgen ].
  - by apply (Generate_aws_emit Hd _ _ AWS).
  - split_distinct Hd. find_case. rewrite Hgen. run.
    rewrite decide_False by (by intros Hn). reflexivity.
  - split_distinct Hd. find_case. rewrite Hgen. run.
    rewrite decide_True by done. reflexivity.
  - rewrite (Generate_azure Hd _ _ _ _ _ Hsel Hmeta Hsession HAzure).
    rewrite Hjson. by rewrite decide_False.
  - rewrite (Generate_azure Hd _ _ _ _ _ Hsel Hmeta Hsession HAzure).
    rewrite Hjson, decide_True by done. by rewrite Hendpoints.
  - subst infraID. split_distinct Hd. find_case. rewrite HGCP. run.
    rewrite Hgen. run. reflexivity.
  - subst installConfig. split_distinct Hd. find_case.
    rewrite Hmeta. run. rewrite Haccount. run. rewrite HIBM. run.
    rewrite Hgen. run. reflexivity.
  - split_distinct Hd. find_case. rewrite HVSphere. run.
    rewrite Hgen. run. reflexivity.
  - split_distinct Hd. find_case. rewrite HKubevirt. run.
    rewrite Hgen. run. reflexivity.
Qed.

(** A step that fails on the selected platform fails the pass, with the
    error of the step wrapped in its message. *)
Lemma Generate_wrapped_step (Hd : DistinctNames X) cpc dependencies cause message :
  wrapped_step dependencies cause message →
  Generate cpc dependencies
    = (cpc, Returned (Some (errors.Wrap cause message))).
Proof.
  intros Hstep.
  destruct Hstep
    as [ err Hsel Hgen
       | metadata err Hsel Hmeta Hsession
       | metadata session Azure err installConfig
           Hsel Hmeta Hsession HAzure Hjson
       | metadata session Azure azureConfig err installConfig
           Hsel Hmeta Hsession HAzure Hjson Hcloud Hendpoints
       | GCP err infraID Hsel HGCP Hgen
       | metadata accountID IBMCloud err installConfig
           Hsel Hmeta Haccount HIBM Hgen
       | VSphere err Hsel HVSphere Hgen
       | Kubevirt err Hsel HKubevirt Hgen
       | cm err Hfills Hyaml ].
  - split_distinct Hd. find_case. rewrite Hgen. run. reflexivity.
  - split_distinct Hd. find_case. rewrite Hmeta. run.
    rewrite Hsession. run. reflexivity.
  - rewrite (Generate_azure Hd _ _ _ _ _ Hsel Hmeta Hsession HAzure).
    by rewrite Hjson.
  - rewrite (Generate_azure Hd _ _ _ _ _ Hsel Hmeta Hsession HAzure).
    rewrite Hjson, decide_True by done. by rewrite Hendpoints.
  - subst infraID. split_distinct Hd. find_case. rewrite HGCP. run.
    rewrite Hgen. run. reflexivity.
  - subst installConfig. split_distinct Hd. find_case.
    rewrite Hmeta. run. rewrite Haccount. run. rewrite HIBM. run.
    rewrite Hgen. run. reflexivity.
  - split_distinct Hd. find_case. rewrite HVSphere. run.
    rewrite Hgen. run. reflexivity.
  - split_distinct Hd. find_case. rewrite HKubevirt. run.
    rewrite Hgen. run. reflexivity.
  - rewrite (Generate_fills Hd _ _ _ Hfills). unfold emit. by rewrite Hyaml.
Qed.

(** The switch falls through exactly with a ConfigMap that an arm has
    filled, and returns early with the account error, the error of the
    default arm, or the wrapped error of a step that failed. *)
Lemma Generate_switch_steps dependencies :
  ∃ switch : flow corev1.ConfigMap,
    ends (fills dependencies)
      (λ err,
         account_lookup_fails dependencies err ∨
         ((selected dependencies ∉ platformNames) ∧
          err = errors.New "invalid Platform") ∨
         ∃ cause message,
           err = errors.Wrap cause message ∧
           wrapped_step dependencies cause message)
      switch ∧
    ∀ cpc, Generate cpc dependencies =
             match switch with
             | Next cm => emit cpc cm
             | Return err => (cpc, Returned err)
             | Panic => (cpc, Panicked)
             end.
Proof.
  eexists. split.
  2: { intros cpc. unfold Generate, emit. cbn zeta. reflexivity. }
  walk.
  all: try exact I.
  all: cbn [ends].
  all: try (solve [ econstructor;
                    first [ eassumption | by apply dec_stable | done ] ]).
  all: try (right; right; eexists _, _; split; [reflexivity|];
            solve [econstructor; eassumption]).
  all: try (left; split; [assumption|]; eexists; split; eassumption).
  - match goal with Hn : ¬ _ ≠ "" |- _ => apply dec_stable in Hn; subst end.
    by eapply fills_openstack.
  - right; left. split; [|reflexivity].
    unfold selected, platformNames.
    repeat match goal with
           | Hn : _ ∉ _ :: _ |- _ => apply not_elem_of_cons in Hn as [? Hn]
           end.
    repeat (apply not_elem_of_cons; split; [assumption|]).
    apply not_elem_of_nil.
Qed.

(** *** Errors and where they come from *)

(** C6: the error of the IBM Cloud account look-up is what [Generate]
    returns, as it is; every other step that fails on the selected
    platform (a look-up, a generator, a serialization) fails the pass
    with its error wrapped in the message of the step; and an error that
    [Generate] returns is one of these or the "invalid Platform" of the
    default arm. *)
Theorem account_error_is_returned_unwrapped (Hd : DistinctNames X) cpc dependencies :
  (∀ err,
     account_lookup_fails dependencies err →
     Generate cpc dependencies = (cpc, Returned (Some err))) ∧
  (∀ cause message,
     wrapped_step dependencies cause message →
     Generate cpc dependencies
       = (cpc, Returned (Some (errors.Wrap cause message)))) ∧
  (∀ cpc' err,
     Generate cpc dependencies = (cpc', Returned (Some err)) →
     account_lookup_fails dependencies err ∨
     ((selected dependencies ∉ platformNames) ∧
      err = errors.New "invalid Platform") ∨
     ∃ cause message,
       err = errors.Wrap cause message ∧
       wrapped_step dependencies cause message).
Proof.
  split; [|split].
  - intros err (Hsel & metadata & Hmeta & Haccount).
    split_distinct Hd. find_case.
    rewrite Hmeta. run. rewrite Haccount. run. reflexivity.
  - intros cause message Hstep. by apply Generate_wrapped_step.
  - intros cpc' err.
    destruct (Generate_switch_steps dependencies) as (switch & Hends & HG).
    rewrite HG. destruct switch as [cm|[early|]|]; cbn [ends] in Hends.
    + unfold emit. destruct (yaml_Marshal cm) as [cmData|cause] eqn:Hyaml;
        [discriminate|].
      intros [= _ <-]. right; right. eexists _, _. split; [reflexivity|].
      by eapply step_manifest.
    + by intros [= _ <-].
    + discriminate.
    + discriminate.
Qed.

(** *** What is stored *)

(** C8: a ConfigMap that [Generate] stores has data: its data map is
    not empty and has one of the keys "config", "ca-bundle.pem" and
    "endpoints".  Either a call stores nothing, or it stores such a
    ConfigMap with its serialization; on a fresh asset, a ConfigMap
    found afterwards is such a ConfigMap. *)
Theorem stored_config_map_has_data cpc dependencies :
  (fst (Generate cpc dependencies) = cpc ∨
   ∃ cm cmData,
     Generate cpc dependencies = (stored cm cmData, Returned None) ∧
     yaml_Marshal cm = Ok cmData ∧ has_data cm) ∧
  (∀ cm, ConfigMap (fst (Generate fresh dependencies)) = Some cm → has_data cm).
Proof.
  destruct (Generate_ways dependencies)
    as [(o & _ & HG) | (cm & cmData & Hdata & Hyaml & HG)].
  - split; [left; by rewrite HG|].
    intros cm. rewrite HG. discriminate.
  - split; [right; exists cm, cmData; by rewrite HG|].
    intros cm'. rewrite HG. by intros [= <-].
Qed.

(** *** Determinism *)

(** C9: what [Generate] returns and stores depends on the dependencies
    only: two calls return the same; if one stores a file, the other
    stores the same file, named [cloudProviderConfigFileName]; and a
    second call on the same asset leaves the result and the asset of the
    first. *)
Theorem generate_is_deterministic cpc1 cpc2 dependencies :
  snd (Generate cpc1 dependencies) = snd (Generate cpc2 dependencies) ∧
  (fst (Generate cpc1 dependencies) ≠ cpc1 →
     fst (Generate cpc2 dependencies) = fst (Generate cpc1 dependencies) ∧
     ∃ cmData,
       Files (fst (Generate cpc1 dependencies))
         = [ {| asset.Filename := cloudProviderConfigFileName;
                asset.Data := cmData |} ]) ∧
  Generate (fst (Generate cpc1 dependencies)) dependencies
    = Generate cpc1 dependencies.
Proof.
  destruct (Generate_ways dependencies)
    as [(o & _ & HG) | (cm & cmData & _ & _ & HG)].
  - rewrite (HG cpc1), (HG cpc2). cbn [fst snd]. rewrite (HG cpc1).
    split; [done|]. split; [|done]. by intros [].
  - rewrite (HG cpc1), (HG cpc2). cbn [fst snd]. rewrite (HG (stored cm cmData)).
    split; [done|]. split; [|done]. intros _. split; [done|]. by exists cmData.
Qed.

(** *** The cases that the claims leave out *)

(** X1: on OpenStack the generator of the OpenStack package gets the whole
    config; its first result is the "config" entry, its second result is
    the "ca-bundle.pem" entry when it is not empty and is left out when it
    is; a failure comes back wrapped. *)
Theorem openstack_config_and_optional_bundle (Hd : DistinctNames X)
    cpc dependencies :
  selected dependencies = openstacktypes_Name →
  Generate cpc dependencies =
    match openstackmanifests_GenerateCloudProviderConfig
            (installconfig.Config (Get_InstallConfig dependencies)) with
    | Err err =>
        (cpc, Returned (Some (errors.Wrap err
                                "failed to generate OpenStack provider config")))
    | Ok (config, caBundle) =>
        emit cpc
          (configMapOf
             (if decide (caBundle = "") then {[ "config" := config ]}
              else <[ "ca-bundle.pem" := caBundle ]> {[ "config" := config ]}))
    end.
Proof.
  intros Hsel. split_distinct Hd. find_case.
  destruct (openstackmanifests_GenerateCloudProviderConfig _)
    as [[config caBundle]|err]; run; [|reflexivity].
  destruct (decide (caBundle = "")) as [->|Hca].
  - rewrite decide_False by (by intros Hn). reflexivity.
  - rewrite decide_True by done. reflexivity.
Qed.

(** X2: on GCP the subnet handed to the generator of the GCP package is
    the config's compute subnet when it is set and
    "<InfraID>-worker-subnet" when it is not; the generator's result is
    the only entry, "config"; a failure comes back wrapped. *)
Theorem gcp_subnet_default_or_override (Hd : DistinctNames X)
    cpc dependencies GCP :
  let infraID := installconfig.InfraID (Get_ClusterID dependencies) in
  selected dependencies = gcptypes_Name →
  types.GCP (types.Platform (installconfig.Config (Get_InstallConfig dependencies)))
    = Some GCP →
  Generate cpc dependencies =
    match gcpmanifests_CloudProviderConfig infraID (gcptypes.ProjectID GCP)
            (if decide (gcptypes.ComputeSubnet GCP = "")
             then infraID +:+ "-worker-subnet"
             else gcptypes.ComputeSubnet GCP) with
    | Err err =>
        (cpc, Returned (Some (errors.Wrap err
                                "could not create cloud provider config")))
    | Ok gcpConfig => emit cpc (configMapOf {[ "config" := gcpConfig ]})
    end.
Proof.
  intros infraID Hsel HGCP. subst infraID. split_distinct Hd. find_case.
  rewrite HGCP. run.
  change (fmt.Sprintf "%s-worker-subnet" [?i]) with (i +:+ "-worker-subnet").
  destruct (decide (gcptypes.ComputeSubnet GCP = "")) as [Hsub|Hsub].
  - rewrite decide_False by (by intros Hn).
    destruct (gcpmanifests_CloudProviderConfig _ _ _); run; reflexivity.
  - rewrite decide_True by done.
    destruct (gcpmanifests_CloudProviderConfig _ _ _); run; reflexivity.
Qed.

Lemma append_empty_r (s : string) : s +:+ "" = s.
Proof.
  induction s as [|c s IH]; [done|].
  change (String c (s +:+ "") = String c s). by rewrite IH.
Qed.

Lemma Sprintf_folder (dataCenter infraID : string) :
  fmt.Sprintf "/%s/vm/%s" [dataCenter; infraID]
  = "/" +:+ dataCenter +:+ "/vm/" +:+ infraID.
Proof.
  change (fmt.Sprintf "/%s/vm/%s" [dataCenter; infraID])
    with ("/" +:+ dataCenter +:+ "/vm/" +:+ infraID +:+ "").
  by rewrite append_empty_r.
Qed.

(** X3: on vSphere the folder handed to the generator of the vSphere
    package is the config's folder when it is set and
    "/<datacenter>/vm/<InfraID>" when it is empty; the generator's result
    is the only entry, "config"; a failure comes back wrapped. *)
Theorem vsphere_folder_default_or_override (Hd : DistinctNames X)
    cpc dependencies VSphere :
  let infraID := installconfig.InfraID (Get_ClusterID dependencies) in
  selected dependencies = vspheretypes_Name →
  types.VSphere
    (types.Platform (installconfig.Config (Get_InstallConfig dependencies)))
    = Some VSphere →
  Generate cpc dependencies =
    match vspheremanifests_CloudProviderConfig
            (if decide (vspheretypes.Folder VSphere = "")
             then "/" +:+ vspheretypes.Datacenter VSphere +:+ "/vm/" +:+ infraID
             else vspheretypes.Folder VSphere)
            VSphere with
    | Err err =>
        (cpc, Returned (Some (errors.Wrap err
                                "could not create cloud provider config")))
    | Ok vsphereConfig => emit cpc (configMapOf {[ "config" := vsphereConfig ]})
    end.
Proof.
  intros infraID Hsel HVSphere. subst infraID. split_distinct Hd. find_case.
  rewrite HVSphere. run.
  rewrite Sprintf_folder.
  destruct (decide (vspheretypes.Folder VSphere = "")) as [Hfolder|Hfolder].
  - rewrite decide_True by (by rewrite Hfolder).
    destruct (vspheremanifests_CloudProviderConfig _ _); run; reflexivity.
  - rewrite decide_False by (by destruct (vspheretypes.Folder VSphere)).
    destruct (vspheremanifests_CloudProviderConfig _ _); run; reflexivity.
Qed.

(** X4: on Kubevirt the serialized payload is the config's namespace and
    the InfraID; its JSON is the only entry, "config"; a failure comes
    back wrapped. *)
Theorem kubevirt_namespace_and_infra_id (Hd : DistinctNames X)
    cpc dependencies Kubevirt :
  selected dependencies = kubevirttypes_Name →
  types.Kubevirt
    (types.Platform (installconfig.Config (Get_InstallConfig dependencies)))
    = Some Kubevirt →
  Generate cpc dependencies =
    match kubevirtmanifests_JSON
            {| kubevirtmanifests.Namespace := kubevirttypes.Namespace Kubevirt;
               kubevirtmanifests.InfraID :=
                 installconfig.InfraID (Get_ClusterID dependencies) |} with
    | Err err =>
        (cpc, Returned (Some (errors.Wrap err
                                "could not create cloud provider config")))
    | Ok kubevirtConfig => emit cpc (configMapOf {[ "config" := kubevirtConfig ]})
    end.
Proof.
  intros Hsel HKubevirt. split_distinct Hd. find_case.
  rewrite HKubevirt. run.
  destruct (kubevirtmanifests_JSON _); run; reflexivity.
Qed.

(** X5: on IBM Cloud, once the account look-up has answered, the
    generator of the IBM Cloud package gets the InfraID, the account and
    the config's region, and its result is the only entry, "config". *)
Theorem ibmcloud_config_from_account (Hd : DistinctNames X)
    cpc dependencies metadata accountID IBMCloud ibmcloudConfig :
  let installConfig := Get_InstallConfig dependencies in
  selected dependencies = ibmcloudtypes_Name →
  installconfig.IBMCloud installConfig = Some metadata →
  icibmcloud_AccountID metadata = Ok accountID →
  types.IBMCloud (types.Platform (installconfig.Config installConfig))
    = Some IBMCloud →
  ibmcloudmanifests_CloudProviderConfig
    (installconfig.InfraID (Get_ClusterID dependencies)) accountID
    (ibmcloudtypes.Region IBMCloud) = Ok ibmcloudConfig →
  Generate cpc dependencies
    = emit cpc (configMapOf {[ "config" := ibmcloudConfig ]}).
Proof.
  intros installConfig Hsel Hmeta Haccount HIBM Hconfig. subst installConfig.
  split_distinct Hd. find_case.
  rewrite Hmeta. run. rewrite Haccount. run. rewrite HIBM. run.
  rewrite Hconfig. run. reflexivity.
Qed.

(** X6: on Azure a failure of the session look-up ends the pass before
    the Azure settings of the config are read: the error comes back
    wrapped and the asset is untouched, whether or not the settings are
    there. *)
Theorem azure_session_failure_comes_first (Hd : DistinctNames X)
    cpc dependencies metadata err :
  selected dependencies = azuretypes_Name →
  installconfig.Azure (Get_InstallConfig dependencies) = Some metadata →
  icazure_Session metadata = Err err →
  Generate cpc dependencies
    = (cpc, Returned (Some (errors.Wrap err "could not get azure session"))).
Proof.
  intros Hsel Hmeta Hsession. split_distinct Hd. find_case.
  rewrite Hmeta. run. rewrite Hsession. run. reflexivity.
Qed.

(** X7: on Azure the serialized payload carries the subscription, tenant
    and client of the session's credentials, the config's cloud name,
    region and resource manager endpoint, the InfraID as resource
    prefix, and the ARO flag of the config. *)
Theorem azure_payload_carries_session_credentials (Hd : DistinctNames X)
    cpc dependencies metadata session Azure :
  let installConfig := Get_InstallConfig dependencies in
  selected dependencies = azuretypes_Name →
  installconfig.Azure installConfig = Some metadata →
  icazure_Session metadata = Ok session →
  types.Azure (types.Platform (installconfig.Config installConfig)) = Some Azure →
  ∃ payload,
    config_is_JSON_of cpc dependencies payload ∧
    azure.SubscriptionID payload
      = icazure.SubscriptionID (icazure.Credentials session) ∧
    azure.TenantID payload = icazure.TenantID (icazure.Credentials session) ∧
    azure.AADClientID payload = icazure.ClientID (icazure.Credentials session) ∧
    azure.AADClientSecret payload
      = icazure.ClientSecret (icazure.Credentials session) ∧
    azure.ARO payload = azuretypes_IsARO Azure.
Proof.
  intros installConfig Hsel Hmeta Hsession HAzure.
  exists (azurePayload Azure
            (installconfig.InfraID (Get_ClusterID dependencies)) session).
  split; [by eapply Generate_azure_payload|]. repeat split.
Qed.

(** X8: on the Azure Stack cloud a failure to serialize the session's
    environment fails the pass, wrapped, although the "config" payload
    has been serialized: nothing is stored. *)
Theorem azure_stack_endpoints_failure (Hd : DistinctNames X)
    cpc dependencies metadata session Azure azureConfig err :
  let installConfig := Get_InstallConfig dependencies in
  selected dependencies = azuretypes_Name →
  installconfig.Azure installConfig = Some metadata →
  icazure_Session metadata = Ok session →
  types.Azure (types.Platform (installconfig.Config installConfig)) = Some Azure →
  azure_JSON (azurePayload Azure
                (installconfig.InfraID (Get_ClusterID dependencies)) session)
    = Ok azureConfig →
  icazure.CloudName metadata = azuretypes_StackCloud →
  json_Marshal (icazure.Environment session) = Err err →
  Generate cpc dependencies
    = (cpc, Returned (Some (errors.Wrap err
                              "could not serialize Azure Stack endpoints"))).
Proof.
  intros installConfig Hsel Hmeta Hsession HAzure Hjson Hcloud Hendpoints.
  rewrite (Generate_azure Hd _ _ _ _ _ Hsel Hmeta Hsession HAzure).
  rewrite Hjson, decide_True by done. by rewrite Hendpoints.
Qed.

(** What the switch falls through with tells the platform. *)
Lemma Generate_switch_keys dependencies :
  ∃ switch : flow corev1.ConfigMap,
    ends (keys_tell_platform dependencies) (λ _, True) switch ∧
    ∀ cpc, Generate cpc dependencies =
             match switch with
             | Next cm => emit cpc cm
             | Return err => (cpc, Returned err)
             | Panic => (cpc, Panicked)
             end.
Proof.
  eexists. split.
  2: { intros cpc. unfold Generate, emit. cbn zeta. reflexivity. }
  walk.
  all: try exact I.
  all: unfold keys_tell_platform, selected.
  all: split; [reflexivity|].
  all: cbn [corev1.set_Data corev1.Data].
  all: split; [rewrite !dom_insert_L, dom_empty_L; set_solver|].
  all: unfold cloudProviderEndpointsKey, cloudProviderConfigCABundleDataKey,
         cloudProviderConfigDataKey.
  all: repeat split; intros Hkey.
  all: first [ assumption | left; assumption | right; assumption
             | exfalso; revert Hkey;
               rewrite ?lookup_insert_eq, ?lookup_insert_ne, ?lookup_empty by done;
               first [ by intros [? ?] | discriminate ] ].
Qed.

(** X9: a ConfigMap that [Generate] stores has the fixed metadata and no
    keys but "config", "ca-bundle.pem" and "endpoints"; it has
    "endpoints" only on Azure, "ca-bundle.pem" only on AWS and OpenStack,
    and lacks "config" only on AWS. *)
Theorem stored_keys_tell_platform cpc dependencies :
  fst (Generate cpc dependencies) ≠ cpc →
  ∃ cm, ConfigMap (fst (Generate cpc dependencies)) = Some cm ∧
        keys_tell_platform dependencies cm.
Proof.
  destruct (Generate_switch_keys dependencies) as (switch & Hends & HG).
  rewrite HG. destruct switch as [cm|ret|]; cbn [ends] in Hends; [|done..].
  unfold emit. destruct (yaml_Marshal cm) as [cmData|err]; [|done].
  intros _. by exists cm.
Qed.

(** X10: the two fields of the asset stay together.  A fresh asset is
    consistent, and [Generate] keeps an asset consistent: afterwards both
    fields are unset, or the ConfigMap has the fixed metadata and the
    file holds its serialization under the fixed name.  So [Files] has
    an entry exactly when there is a ConfigMap. *)
Theorem generate_keeps_asset_consistent cpc dependencies :
  consistent fresh ∧
  (consistent cpc →
     consistent (fst (Generate cpc dependencies)) ∧
     (Files (fst (Generate cpc dependencies)) = []
      ↔ ConfigMap (fst (Generate cpc dependencies)) = None)).
Proof.
  split; [exact I|]. intros Hcpc.
  assert (consistent (fst (Generate cpc dependencies))) as Hafter.
  { destruct (Generate_switch_keys dependencies) as (switch & Hends & HG).
    rewrite HG. destruct switch as [cm|ret|]; cbn [ends] in Hends; [|done..].
    unfold emit. destruct (yaml_Marshal cm) as [cmData|err] eqn:Hyaml; [|done].
    destruct Hends as [Hmeta _]. by repeat split. }
  split; [exact Hafter|].
  unfold consistent, Files in *.
  destruct (ConfigMap (fst (Generate cpc dependencies))),
    (File (fst (Generate cpc dependencies))); naive_solver.
Qed.

Lemma no_panic_bind {A B : Type} (onNext : B → Prop)
    (body : flow A) (rest : A → flow B) :
  no_panic (λ a, no_panic onNext (rest a)) body →
  no_panic onNext (body ≫= rest).
Proof. destruct body as [a|err|]; done. Qed.

Lemma no_panic_deref {A : Type} (onNext : A → Prop) (p : option A) :
  is_Some p → (∀ a, p = Some a → onNext a) → no_panic onNext (deref p).
Proof. intros [a ->] Hnext. cbn. by apply Hnext. Qed.

Lemma no_panic_attempt {A : Type} (onNext : A → Prop)
    (call : result A) (wrap : error → error) :
  (∀ value, call = Ok value → onNext value) →
  no_panic onNext (attempt call wrap).
Proof. destruct call as [value|err]; cbn; auto. Qed.

(** X11: when the pointers that the selected platform's case reads are
    set, [Generate] does not panic: it returns, with [nil] or an error. *)
Theorem generate_returns_when_platform_present cpc dependencies :
  platform_present dependencies →
  ∃ err, snd (Generate cpc dependencies) = Returned err.
Proof.
  intros Hpresent.
  enough (∃ switch : flow corev1.ConfigMap,
            no_panic (λ _, True) switch ∧
            Generate cpc dependencies =
              match switch with
              | Next cm => emit cpc cm
              | Return err => (cpc, Returned err)
              | Panic => (cpc, Panicked)
              end) as (switch & Hswitch & ->).
  { destruct switch as [cm|err|]; [|by eexists|done].
    unfold emit. destruct (yaml_Marshal cm); by eexists. }
  eexists. split.
  2: { unfold Generate, emit. cbn zeta. reflexivity. }
  unfold platform_present, selected in Hpresent. cbn zeta in Hpresent.
  destruct Hpresent as (HAWS & HAzure & HGCP & HIBM & HVSphere & HKubevirt).
  repeat first
    [ apply no_panic_bind
    | apply no_panic_deref;
        [ first [ by apply HAWS | by apply HAzure | by apply HGCP
                | by apply HIBM | by apply HVSphere | by apply HKubevirt ]
        | intros ? ? ]
    | apply no_panic_attempt; (intros [? ?] ? || intros ? ?)
    | progress cbn beta iota zeta
    | match goal with
      | |- no_panic _ (if decide ?P then _ else _) => destruct (decide P)
      end ].
  all: exact I.
Qed.

(** X12: on AWS with a trust bundle and a C2S region, a failure of
    [yaml.Marshal] on the ConfigMap fails the pass, wrapped in the
    message that names the asset, and nothing is stored. *)
Theorem aws_manifest_failure (Hd : DistinctNames X) cpc dependencies AWS err :
  let Config := installconfig.Config (Get_InstallConfig dependencies) in
  let trustBundle := types.AdditionalTrustBundle Config in
  selected dependencies = awstypes_Name →
  trustBundle ≠ "" →
  types.AWS (types.Platform Config) = Some AWS →
  awstypes.Region AWS ∈ awstypes_C2SRegions →
  yaml_Marshal (configMapOf {[ "ca-bundle.pem" := trustBundle ]}) = Err err →
  Generate cpc dependencies
    = (cpc, Returned (Some (errors.Wrap err
                              "failed to create Cloud Provider Config manifest"))) ∧
  Files (fst (Generate cpc dependencies)) = Files cpc.
Proof.
  intros Config trustBundle Hsel Htb HAWS Hregion Hyaml.
  rewrite (Generate_aws_emit Hd _ _ _ Hsel Htb HAWS Hregion).
  subst trustBundle Config.
  unfold emit, cloudProviderConfigCABundleDataKey. by rewrite Hyaml.
Qed.

Lemma nil_only_bind {A B : Type} (onNil : Prop) (onNext : B → Prop)
    (body : flow A) (rest : A → flow B) :
  nil_only onNil (λ a, nil_only onNil onNext (rest a)) body →
  nil_only onNil onNext (body ≫= rest).
Proof. destruct body as [a|[err|]|]; done. Qed.

Lemma nil_only_deref {A : Type} (onNil : Prop) (onNext : A → Prop)
    (p : option A) :
  (∀ a, p = Some a → onNext a) → nil_only onNil onNext (deref p).
Proof. destruct p as [a|]; cbn; auto. Qed.

Lemma nil_only_attempt {A : Type} (onNil : Prop) (onNext : A → Prop)
    (call : result A) (wrap : error → error) :
  (∀ value, call = Ok value → onNext value) →
  nil_only onNil onNext (attempt call wrap).
Proof. destruct call as [value|err]; cbn; auto. Qed.

(** A pass that returns [nil] and leaves a fresh asset fresh had
    nothing to generate. *)
Lemma skip_had_nothing_to_generate dependencies :
  Generate fresh dependencies = (fresh, Returned None) →
  nothing_to_generate dependencies.
Proof.
  enough (∃ switch : flow corev1.ConfigMap,
            nil_only (nothing_to_generate dependencies) (λ _, True) switch ∧
            Generate fresh dependencies =
              match switch with
              | Next cm => emit fresh cm
              | Return err => (fresh, Returned err)
              | Panic => (fresh, Panicked)
              end) as (switch & Hswitch & ->).
  { destruct switch as [cm|[err|]|]; [|done|by intros _|done].
    unfold emit. by destruct (yaml_Marshal cm). }
  eexists. split.
  2: { unfold Generate, emit. cbn zeta. reflexivity. }
  repeat first
    [ apply nil_only_bind
    | apply nil_only_deref; intros ? ?
    | apply nil_only_attempt; (intros [? ?] ? || intros ? ?)
    | progress cbn beta iota zeta
    | match goal with
      | |- nil_only _ _ (if decide ?P then _ else _) => destruct (decide P)
      end ].
  all: try exact I.
  all: unfold nothing_to_generate, selected, noopNames; cbn [nil_only].
  - by left.
  - right. split; [done|]. by left.
  - right. split; [done|]. right. by eexists.
Qed.

(** X13: [Generate] skips exactly where there is nothing to generate.
    A pass on a fresh asset returns [nil] and leaves the asset fresh if
    and only if the platform is libvirt, none, baremetal or ovirt, or it
    is AWS without a trust bundle or outside the C2S regions; for every
    other configuration a pass that returns [nil] has stored a file. *)
Theorem skip_iff_nothing_to_generate (Hd : DistinctNames X) dependencies :
  Generate fresh dependencies = (fresh, Returned None)
  ↔ nothing_to_generate dependencies.
Proof.
  split; [apply skip_had_nothing_to_generate|].
  intros [Hnoop | (Hsel & [Hbundle | (AWS & HAWS & Hregion)])].
  - by apply Generate_noop.
  - by apply Generate_aws_skip_bundle.
  - by eapply Generate_aws_skip_region.
Qed.

End Properties.

(** ** The properties on the sample installation *)

Section OnSample.
Import manifests.

Lemma sample_names_distinct : DistinctNames Sample.externals.
Proof. apply (bool_decide_unpack _). vm_compute. exact I. Defined.

(** C5 as the specification words it fails: on the asset that a pass for
    AWS in a C2S region has stored a file in, a pass for libvirt succeeds
    and [Files] still returns that one file, not the empty list. *)
Lemma skip_keeps_stale_file :
  selected Sample.libvirtParents ∈ noopNames (X := Sample.externals) ∧
  Generate Sample.generated Sample.libvirtParents
    = (Sample.generated, Returned None) ∧
  length (Files (fst (Generate Sample.generated Sample.libvirtParents))) = 1 ∧
  ¬ @noop_empties_file_list string string Sample.externals.
Proof.
  assert (selected Sample.libvirtParents ∈ noopNames (X := Sample.externals))
    as Hnoop by (vm_compute; constructor).
  split; [exact Hnoop|]. split; [by vm_compute|]. split; [by vm_compute|].
  intros Hclaim.
  destruct (Hclaim Sample.generated Sample.libvirtParents Hnoop) as [_ Hfiles].
  vm_compute in Hfiles. discriminate Hfiles.
Qed.

Lemma noop_platform_keeps_asset_witness :
  Generate Sample.generated Sample.libvirtParents
    = (Sample.generated, Returned None) ∧
  Files (fst (Generate Sample.generated Sample.libvirtParents))
    = Files Sample.generated ∧
  (File Sample.generated = None →
     Files (fst (Generate Sample.generated Sample.libvirtParents)) = []).
Proof.
  apply noop_platform_keeps_asset. vm_compute. constructor.
Defined.

Lemma unknown_platform_is_invalid_witness :
  Generate fresh Sample.unknownParents
    = (fresh, Returned (Some (errors.New "invalid Platform"))) ∧
  Files (fst (Generate fresh Sample.unknownParents)) = [].
Proof.
  destruct (unknown_platform_is_invalid fresh Sample.unknownParents)
    as (Hrun & _ & Hfiles).
  { apply (bool_decide_unpack _). vm_compute. exact I. }
  split; [exact Hrun|]. apply Hfiles. reflexivity.
Defined.

Lemma aws_trust_bundle_in_c2s_witness :
  Generate fresh (Sample.awsParents "" "us-iso-east-1") = (fresh, Returned None) ∧
  Generate fresh (Sample.awsParents "BUNDLE" "us-east-1") = (fresh, Returned None) ∧
  ∃ cmData,
    Files (fst (Generate fresh (Sample.awsParents "BUNDLE" "us-iso-east-1")))
      = [ {| asset.Filename := "manifests/cloud-provider-config.yaml";
             asset.Data := cmData |} ].
Proof.
  split; [|split].
  - apply (aws_trust_bundle_in_c2s sample_names_distinct fresh
             (Sample.awsParents "" "us-iso-east-1") eq_refl).
    reflexivity.
  - eapply (aws_trust_bundle_in_c2s sample_names_distinct fresh
              (Sample.awsParents "BUNDLE" "us-east-1") eq_refl).
    + reflexivity.
    + apply (bool_decide_unpack _). vm_compute. exact I.
  - eexists.
    eapply (aws_trust_bundle_in_c2s sample_names_distinct fresh
              (Sample.awsParents "BUNDLE" "us-iso-east-1") eq_refl).
    + reflexivity.
    + discriminate.
    + apply (bool_decide_unpack _). vm_compute. exact I.
    + reflexivity.
Defined.

Lemma failed_generate_keeps_asset_witness :
  ConfigMap (fst (Generate Sample.generated (Sample.ibmcloudParents "")))
    = ConfigMap Sample.generated ∧
  File (fst (Generate Sample.generated (Sample.ibmcloudParents "")))
    = File Sample.generated.
Proof.
  eapply (failed_generate_keeps_asset Sample.generated
            (Sample.ibmcloudParents "") _ (errors.New "no account")).
  vm_compute. reflexivity.
Defined.

Lemma azure_names_default_or_override_witness :
  ∃ payload,
    config_is_JSON_of fresh
      (Sample.azureParents "AzurePublicCloud" "" "myvnet" "") payload ∧
    azure.NetworkSecurityGroupName payload = "abcde-nsg" ∧
    azure.VirtualNetworkName payload = "myvnet" ∧
    azure.SubnetName payload = "abcde-worker-subnet" ∧
    azure.NetworkResourceGroupName payload = "abcde-rg".
Proof.
  destruct (azure_names_default_or_override sample_names_distinct fresh
              (Sample.azureParents "AzurePublicCloud" "" "myvnet" "")
              _ _ _ eq_refl eq_refl eq_refl eq_refl)
    as (payload & Hjson & Hnsg & _ & Hsubnet & Hnrg & Hvnet & _ & _).
  exists payload. split; [exact Hjson|]. split; [exact Hnsg|].
  split; [apply Hvnet; discriminate|].
  split; [apply Hsubnet; reflexivity|].
  apply Hnrg. reflexivity.
Defined.


Lemma azure_endpoints_iff_stack_cloud_witness :
  (∃ cm,
     ConfigMap (fst (Generate fresh Sample.azureStackParents)) = Some cm ∧
     is_Some (corev1.Data cm !! "endpoints")) ∧
  (∃ cm,
     ConfigMap (fst (Generate fresh
                       (Sample.azureParents "AzurePublicCloud" "" "" "")))
       = Some cm ∧
     corev1.Data cm !! "endpoints" = None).
Proof.
  split.
  - destruct (azure_endpoints_iff_stack_cloud sample_names_distinct fresh
                Sample.azureStackParents
                (fst (Generate fresh Sample.azureStackParents)) eq_refl)
      as (metadata & session & Azure & cm & _ & _ & HAzure & Hcm & Hiff & _).
    { intros metadata Azure Hmeta HAzure.
      vm_compute in Hmeta, HAzure.
      injection Hmeta as <-. injection HAzure as <-. reflexivity. }
    { vm_compute. reflexivity. }
    exists cm. split; [exact Hcm|]. apply Hiff.
    vm_compute in HAzure. injection HAzure as <-. reflexivity.
  - destruct (azure_endpoints_iff_stack_cloud sample_names_distinct fresh
                (Sample.azureParents "AzurePublicCloud" "" "" "")
                (fst (Generate fresh
                        (Sample.azureParents "AzurePublicCloud" "" "" "")))
                eq_refl)
      as (metadata & session & Azure & cm & _ & _ & HAzure & Hcm & _ & _ & Hnot & _).
    { intros metadata Azure Hmeta HAzure.
      vm_compute in Hmeta, HAzure.
      injection Hmeta as <-. injection HAzure as <-. reflexivity. }
    { vm_compute. reflexivity. }
    exists cm. split; [exact Hcm|]. apply Hnot.
    vm_compute in HAzure. injection HAzure as <-. discriminate.
Defined.

Lemma account_error_is_returned_unwrapped_witness :
  Generate fresh (Sample.ibmcloudParents "")
    = (fresh, Returned (Some (errors.New "no account"))) ∧
  Generate fresh (Sample.azureMetadataOnly "")
    = (fresh, Returned (Some (errors.Wrap (errors.New "no session")
                                "could not get azure session"))).
Proof.
  split.
  - apply (account_error_is_returned_unwrapped sample_names_distinct fresh
             (Sample.ibmcloudParents "")).
    split; [reflexivity|]. eexists. split; reflexivity.
  - apply (account_error_is_returned_unwrapped sample_names_distinct fresh
             (Sample.azureMetadataOnly "")).
    eapply step_azure_session; reflexivity.
Defined.

Lemma stored_config_map_has_data_witness :
  has_data (@configMapOf string string Sample.externals
              {[ "ca-bundle.pem" := "BUNDLE" ]}).
Proof.
  apply (stored_config_map_has_data fresh
           (Sample.awsParents "BUNDLE" "us-iso-east-1")).
  vm_compute. reflexivity.
Defined.

Lemma generate_is_deterministic_witness :
  fst (Generate Sample.generated (Sample.awsParents "BUNDLE" "us-iso-east-1"))
    = fst (Generate fresh (Sample.awsParents "BUNDLE" "us-iso-east-1")).
Proof.
  apply (generate_is_deterministic fresh Sample.generated
           (Sample.awsParents "BUNDLE" "us-iso-east-1")).
  vm_compute. discriminate.
Defined.

End OnSample.

(** ** The further properties on the sample installation *)

Section CasesOnSample.
Import manifests.

Lemma broken_yaml_names_distinct : DistinctNames Sample.brokenYaml.
Proof. apply (bool_decide_unpack _). vm_compute. exact I. Defined.

Lemma broken_json_names_distinct : DistinctNames Sample.brokenJSON.
Proof. apply (bool_decide_unpack _). vm_compute. exact I. Defined.

Lemma openstack_config_and_optional_bundle_witness :
  (∃ cmData,
     Generate fresh (Sample.openstackParents "PEM")
       = (stored (configMapOf (<[ "ca-bundle.pem" := "PEM" ]>
                                 {[ "config" := "[Global]" ]})) cmData,
          Returned None)) ∧
  (∃ cmData,
     Generate fresh (Sample.openstackParents "")
       = (stored (configMapOf {[ "config" := "[Global]" ]}) cmData,
          Returned None)).
Proof.
  split.
  - rewrite (openstack_config_and_optional_bundle sample_names_distinct fresh
               (Sample.openstackParents "PEM") eq_refl).
    eexists. reflexivity.
  - rewrite (openstack_config_and_optional_bundle sample_names_distinct fresh
               (Sample.openstackParents "") eq_refl).
    eexists. reflexivity.
Defined.

Lemma gcp_subnet_default_or_override_witness :
  (∃ cmData,
     Generate fresh (Sample.gcpParents "")
       = (stored (configMapOf
                    {[ "config" := "abcde;project;abcde-worker-subnet;" ]}) cmData,
          Returned None)) ∧
  (∃ cmData,
     Generate fresh (Sample.gcpParents "workers")
       = (stored (configMapOf {[ "config" := "abcde;project;workers;" ]}) cmData,
          Returned None)).
Proof.
  split.
  - rewrite (gcp_subnet_default_or_override sample_names_distinct fresh
               (Sample.gcpParents "") _ eq_refl eq_refl).
    eexists. reflexivity.
  - rewrite (gcp_subnet_default_or_override sample_names_distinct fresh
               (Sample.gcpParents "workers") _ eq_refl eq_refl).
    eexists. reflexivity.
Defined.

Lemma vsphere_folder_default_or_override_witness :
  (∃ cmData,
     Generate fresh (Sample.vsphereParents "")
       = (stored (configMapOf {[ "config" := "/dc1/vm/abcde;dc1;" ]}) cmData,
          Returned None)) ∧
  (∃ cmData,
     Generate fresh (Sample.vsphereParents "/dc1/vm/mine")
       = (stored (configMapOf {[ "config" := "/dc1/vm/mine;dc1;" ]}) cmData,
          Returned None)).
Proof.
  split.
  - rewrite (vsphere_folder_default_or_override sample_names_distinct fresh
               (Sample.vsphereParents "") _ eq_refl eq_refl).
    eexists. reflexivity.
  - rewrite (vsphere_folder_default_or_override sample_names_distinct fresh
               (Sample.vsphereParents "/dc1/vm/mine") _ eq_refl eq_refl).
    eexists. reflexivity.
Defined.

Lemma kubevirt_namespace_and_infra_id_witness :
  ∃ cmData,
    Generate fresh Sample.kubevirtParents
      = (stored (configMapOf {[ "config" := "tenants;abcde;" ]}) cmData,
         Returned None).
Proof.
  rewrite (kubevirt_namespace_and_infra_id sample_names_distinct fresh
             Sample.kubevirtParents _ eq_refl eq_refl).
  eexists. reflexivity.
Defined.

Lemma ibmcloud_config_from_account_witness :
  ∃ cmData,
    Generate fresh (Sample.ibmcloudParents "acct")
      = (stored (configMapOf {[ "config" := "abcde;acct;eu-gb;" ]}) cmData,
         Returned None).
Proof.
  rewrite (ibmcloud_config_from_account sample_names_distinct fresh
             (Sample.ibmcloudParents "acct") _ _ _ _
             eq_refl eq_refl eq_refl eq_refl eq_refl).
  eexists. reflexivity.
Defined.

Lemma azure_session_failure_comes_first_witness :
  Generate fresh (Sample.azureMetadataOnly "")
    = (fresh, Returned (Some (errors.Wrap (errors.New "no session")
                                "could not get azure session"))).
Proof.
  apply (azure_session_failure_comes_first sample_names_distinct fresh
           (Sample.azureMetadataOnly "") _ _ eq_refl eq_refl eq_refl).
Defined.

Lemma azure_payload_carries_session_credentials_witness :
  ∃ payload,
    config_is_JSON_of fresh
      (Sample.azureParents "AzurePublicCloud" "" "" "") payload ∧
    azure.SubscriptionID payload = "sub" ∧ azure.TenantID payload = "tenant" ∧
    azure.AADClientID payload = "client" ∧
    azure.AADClientSecret payload = "secret" ∧ azure.ARO payload = false.
Proof.
  apply (azure_payload_carries_session_credentials sample_names_distinct fresh
           (Sample.azureParents "AzurePublicCloud" "" "" "")
           _ _ _ eq_refl eq_refl eq_refl eq_refl).
Defined.

Lemma azure_stack_endpoints_failure_witness :
  Generate (X := Sample.brokenJSON) fresh
    (Sample.azureParents "AzureStackCloud" "" "" "")
    = (fresh, Returned (Some (errors.Wrap (errors.New "json: cannot marshal")
                                "could not serialize Azure Stack endpoints"))).
Proof.
  apply (azure_stack_endpoints_failure (X := Sample.brokenJSON)
           broken_json_names_distinct fresh
           (Sample.azureParents "AzureStackCloud" "" "" "")
           _ _ _ _ _ eq_refl eq_refl eq_refl eq_refl eq_refl eq_refl eq_refl).
Defined.

Lemma stored_keys_tell_platform_witness :
  ∃ cm,
    ConfigMap (fst (Generate fresh (Sample.azureParents "AzureStackCloud" "" "" "")))
      = Some cm ∧
    keys_tell_platform (Sample.azureParents "AzureStackCloud" "" "" "") cm.
Proof.
  apply (stored_keys_tell_platform fresh
           (Sample.azureParents "AzureStackCloud" "" "" "")).
  vm_compute. discriminate.
Defined.

Lemma generate_keeps_asset_consistent_witness :
  consistent (fst (Generate Sample.generated Sample.libvirtParents)) ∧
  consistent (fst (Generate Sample.generated (Sample.gcpParents ""))).
Proof.
  assert (consistent Sample.generated) as Hgenerated.
  { apply (generate_keeps_asset_consistent fresh
             (Sample.awsParents "BUNDLE" "us-iso-east-1")).
    apply (generate_keeps_asset_consistent fresh Sample.libvirtParents). }
  split.
  - apply (generate_keeps_asset_consistent Sample.generated Sample.libvirtParents).
    exact Hgenerated.
  - apply (generate_keeps_asset_consistent Sample.generated (Sample.gcpParents "")).
    exact Hgenerated.
Defined.

Lemma generate_returns_when_platform_present_witness :
  ∃ err, snd (Generate fresh (Sample.gcpParents "")) = Returned err.
Proof.
  apply (generate_returns_when_platform_present fresh (Sample.gcpParents "")).
  unfold platform_present. cbn zeta.
  repeat apply conj; intros Hname; try (vm_compute in Hname; discriminate Hname).
  by eexists.
Defined.

Lemma aws_manifest_failure_witness :
  Generate (X := Sample.brokenYaml) fresh
    (Sample.awsParents "BUNDLE" "us-iso-east-1")
    = (fresh, Returned (Some (errors.Wrap (errors.New "yaml: cannot marshal")
                                "failed to create Cloud Provider Config manifest"))).
Proof.
  eapply (aws_manifest_failure (X := Sample.brokenYaml)
            broken_yaml_names_distinct fresh
            (Sample.awsParents "BUNDLE" "us-iso-east-1") _ _ eq_refl).
  - discriminate.
  - reflexivity.
  - apply (bool_decide_unpack _). vm_compute. exact I.
  - reflexivity.
Defined.

Lemma skip_iff_nothing_to_generate_witness :
  nothing_to_generate (Sample.awsParents "BUNDLE" "us-east-1") ∧
  ¬ nothing_to_generate (Sample.gcpParents "").
Proof.
  split.
  - apply (skip_iff_nothing_to_generate sample_names_distinct
             (Sample.awsParents "BUNDLE" "us-east-1")).
    vm_compute. reflexivity.
  - intros Hnothing.
    apply (skip_iff_nothing_to_generate sample_names_distinct
             (Sample.gcpParents "")) in Hnothing.
    vm_compute in Hnothing. discriminate Hnothing.
Defined.

End CasesOnSample.
